(** * GameBox3D: the box-art customizer store and the viewer's box model

    A shallow embedding of [src/components/3d/BoxArtCustomizer.tsx] and of
    [src/components/3d/BoxArt3DViewer.tsx].  React state is modelled by
    explicit state passing: every event handler becomes a function from the
    component state before the event to the state after the re-render.

    Conventions.
    - A JavaScript [number] that holds a slider value, a rotation angle or a
      length is a rational ([Q]); arithmetic on it is exact.
    - [Date.now()] is an argument [now : Z] (milliseconds) of the handler that
      calls it.
    - [undefined] is [None].
    - The value kept under [STORAGE_KEY] in the browser's local storage is the
      list of records itself: [JSON.stringify] and [JSON.parse] are taken to
      be inverse on arrays of [CustomizationData].  Whether the browser
      accepts a [setItem] (quota, disabled storage) is an argument
      [accepted : bool] of the handler that calls it.
    - [alert(msg)] appends [msg] to the [alerts] trace of the state. *)

From Stdlib Require Import ZArith QArith Lqa Bool List Ascii String Lia.
Import ListNotations.

Open Scope string_scope.

(** ** JavaScript helpers *)

Module JS.

(** Truthiness of a [string | undefined]: the empty string and [undefined]
    are falsy. *)
Definition truthy (v : option string) : bool :=
  match v with
  | Some s => negb (s =? EmptyString)
  | None => false
  end.

(** [a || b] on [string | undefined]. *)
Definition or (a b : option string) : option string :=
  if truthy a then a else b.

(** [a || 'literal']: the right operand is a string, so is the result. *)
Definition or_str (a : option string) (d : string) : string :=
  match or a (Some d) with
  | Some s => s
  | None => d
  end.

(** [a?.f] *)
Definition opt_chain {A B : Type} (a : option A) (f : A -> option B) : option B :=
  match a with
  | Some x => f x
  | None => None
  end.

Definition toUpperCase_char (c : ascii) : ascii :=
  let n := nat_of_ascii c in
  if andb (97 <=? n)%nat (n <=? 122)%nat then ascii_of_nat (n - 32) else c.

(** [s.charAt(0).toUpperCase() + s.slice(1)] *)
Definition capitalize (s : string) : string :=
  match s with
  | EmptyString => EmptyString
  | String c rest => String (toUpperCase_char c) rest
  end.

Definition dquote : string := String "034"%char EmptyString.

End JS.

(** A JavaScript [number]. *)
Definition number : Type := Q.

(** ** BoxArtCustomizer.tsx: the preview's box model *)

Module CustomizableBoxModel.

(** A texture object, as far as this component touches it: the image it was
    loaded from and the [needsUpdate] flag the filter effect assigns. *)
Record Texture : Type := { image : string; needsUpdate : bool }.

Definition set_needsUpdate (t : Texture) (b : bool) : Texture :=
  {| image := image t; needsUpdate := b |}.

Record Props : Type := {
  frontImage : string;
  backImage : string;
  spineImage : string;
  frameColor : string;
  brightness : number;
  contrast : number;
  saturation : number;
  platform : string
}.

(** [<meshStandardMaterial attach=.. color=.. map=.. />] *)
Record Material : Type := {
  attach : string;
  color : option string;
  map : option Texture
}.

(** [<group rotation=..><mesh><boxGeometry args=.. /> materials </mesh></group>] *)
Record GroupElement : Type := {
  rotation : number * number * number;
  boxGeometry_args : number * number * number;
  materials : list Material
}.

Definition width : number := 2.6.
Definition height : number := 3.5.
Definition depth : number := 0.3.

Section WithLoader.

(** drei's texture loader; only its result for a given image matters. *)
Variable useTexture : string -> Texture.

(** The body of the filter effect for one texture:
    [if (texture) texture.needsUpdate = true].  A texture object is truthy. *)
Definition markTexture (texture : Texture) : Texture :=
  set_needsUpdate texture true.

(** The filter effect, run over [[frontTexture, backTexture, spineTexture]];
    it reads none of its dependencies. *)
Definition applyImageFilters (textures : list Texture) : list Texture :=
  List.map markTexture textures.

(** The dependency array of that effect. *)
Definition filter_deps (p : Props)
    : number * number * number * Texture * Texture * Texture :=
  (brightness p, contrast p, saturation p,
   useTexture (frontImage p), useTexture (backImage p), useTexture (spineImage p)).

(** The element tree the component returns, over the three textures. *)
Definition render_with (p : Props) (frontTexture backTexture spineTexture : Texture)
    : GroupElement :=
  {| rotation := (-0.2, 0.4, 0);
     boxGeometry_args := (width, height, depth);
     materials :=
       [ {| attach := "material-0"; color := Some (frameColor p); map := None |};
         {| attach := "material-1"; color := None; map := Some spineTexture |};
         {| attach := "material-2"; color := Some (frameColor p); map := None |};
         {| attach := "material-3"; color := Some (frameColor p); map := None |};
         {| attach := "material-4"; color := None; map := Some frontTexture |};
         {| attach := "material-5"; color := None; map := Some backTexture |} ] |}.

(** The scene after a commit: the textures are loaded, the effect has run
    over them, and the materials refer to those same texture objects. *)
Definition render (p : Props) : GroupElement :=
  render_with p
    (markTexture (useTexture (frontImage p)))
    (markTexture (useTexture (backImage p)))
    (markTexture (useTexture (spineImage p))).

End WithLoader.

(** The [useFrame] callback: the scale it gives the mounted group. *)
Definition useFrame (hovered : bool) : number :=
  if hovered then 1.05 else 1.

(** What is on screen: the committed element tree and the group's scale
    after a frame. *)
Record Scene : Type := { element : GroupElement; scale : number }.

Definition scene (useTexture : string -> Texture) (p : Props) (hovered : bool) : Scene :=
  {| element := render useTexture p; scale := useFrame hovered |}.

End CustomizableBoxModel.

(** ** BoxArtCustomizer.tsx: the customizer *)

Module Customizer.

Inductive Platform : Type := xbox | playstation | pc | standard.

Record PlatformConfig : Type := { baseColor : string; name : string }.

Definition PLATFORM_CONFIGS (p : Platform) : PlatformConfig :=
  match p with
  | xbox => {| baseColor := "#107C10"; name := "Xbox" |}
  | playstation => {| baseColor := "#0070D1"; name := "PlayStation" |}
  | pc => {| baseColor := "#606060"; name := "PC" |}
  | standard => {| baseColor := "#707070"; name := "Standard" |}
  end.

Record ColorPreset : Type := { preset_name : string; color : string }.

Definition COLOR_PRESETS : list ColorPreset :=
  [ {| preset_name := "Classic Green"; color := "#107C10" |};
    {| preset_name := "PlayStation Blue"; color := "#0070D1" |};
    {| preset_name := "Nintendo Red"; color := "#E60012" |};
    {| preset_name := "Gold"; color := "#FFD700" |};
    {| preset_name := "Silver"; color := "#C0C0C0" |};
    {| preset_name := "Black"; color := "#000000" |};
    {| preset_name := "White"; color := "#FFFFFF" |};
    {| preset_name := "Purple"; color := "#8B00FF" |};
    {| preset_name := "Orange"; color := "#FF8C00" |};
    {| preset_name := "Pink"; color := "#FF1493" |} ].

(** [BoxArtCustomizerProps.initialData] *)
Module Props.
Record initialData : Type := {
  frontImageUrl : string;
  backImageUrl : option string;
  spineImageUrl : option string;
  platform : Platform;
  title : option string
}.
End Props.

Record CustomizationData : Type := {
  frontImage : string;
  backImage : string;
  spineImage : string;
  frameColor : string;
  platform : Platform;
  title : string;
  brightness : number;
  contrast : number;
  saturation : number;
  lastModified : Z
}.

(** The component state: the three [useState] cells, the local-storage
    entry under [STORAGE_KEY], and the trace of alerts shown so far. *)
Record State : Type := {
  customization : CustomizationData;
  savedCustomizations : list CustomizationData;
  activeTab : string;
  localStorage : option (list CustomizationData);
  alerts : list string
}.

Definition setCustomization (f : CustomizationData -> CustomizationData) (s : State) : State :=
  {| customization := f (customization s);
     savedCustomizations := savedCustomizations s;
     activeTab := activeTab s;
     localStorage := localStorage s;
     alerts := alerts s |}.

Definition setSavedCustomizations (l : list CustomizationData) (s : State) : State :=
  {| customization := customization s;
     savedCustomizations := l;
     activeTab := activeTab s;
     localStorage := localStorage s;
     alerts := alerts s |}.

Definition setActiveTab (t : string) (s : State) : State :=
  {| customization := customization s;
     savedCustomizations := savedCustomizations s;
     activeTab := t;
     localStorage := localStorage s;
     alerts := alerts s |}.

(** [localStorage.setItem(STORAGE_KEY, JSON.stringify(l))]: the entry is
    replaced when the browser accepts the write; otherwise the call throws
    ([None]) and the entry stays as it was. *)
Definition localStorage_setItem (accepted : bool) (l : list CustomizationData)
    (s : State) : option State :=
  if accepted then
    Some {| customization := customization s;
            savedCustomizations := savedCustomizations s;
            activeTab := activeTab s;
            localStorage := Some l;
            alerts := alerts s |}
  else None.

Definition alert (msg : string) (s : State) : State :=
  {| customization := customization s;
     savedCustomizations := savedCustomizations s;
     activeTab := activeTab s;
     localStorage := localStorage s;
     alerts := (alerts s ++ [msg])%list |}.

(** [initialData?.platform || 'standard']: a platform name is never falsy. *)
Definition initial_platform (initialData : option Props.initialData) : Platform :=
  match initialData with
  | Some d => Props.platform d
  | None => standard
  end.

(** The object literal that both the [useState] initialiser and
    [resetCustomization] build from [initialData]. *)
Definition defaults (initialData : option Props.initialData) (now : Z) : CustomizationData :=
  let front := option_map Props.frontImageUrl initialData in
  let plat := initial_platform initialData in
  {| frontImage := JS.or_str front EmptyString;
     backImage :=
       JS.or_str (JS.or (JS.opt_chain initialData Props.backImageUrl) front) EmptyString;
     spineImage :=
       JS.or_str (JS.or (JS.opt_chain initialData Props.spineImageUrl) front) EmptyString;
     frameColor := baseColor (PLATFORM_CONFIGS plat);
     platform := plat;
     title := JS.or_str (JS.opt_chain initialData Props.title) "Custom Box Art";
     brightness := 1.0;
     contrast := 1.0;
     saturation := 1.0;
     lastModified := now |}.

(** The state once the component is mounted over a storage entry: the
    [useState] initialisers followed by the mount effect that reads
    [STORAGE_KEY]. *)
Definition mount (initialData : option Props.initialData) (now : Z)
    (storage : option (list CustomizationData)) : State :=
  {| customization := defaults initialData now;
     savedCustomizations :=
       match storage with
       | Some saved => saved
       | None => []
       end;
     activeTab := "viewer";
     localStorage := storage;
     alerts := [] |}.

(** [c.title !== t] *)
Definition title_differs (t : string) (c : CustomizationData) : bool :=
  negb (title c =? t).

Definition restamp (c : CustomizationData) (now : Z) : CustomizationData :=
  {| frontImage := frontImage c;
     backImage := backImage c;
     spineImage := spineImage c;
     frameColor := frameColor c;
     platform := platform c;
     title := title c;
     brightness := brightness c;
     contrast := contrast c;
     saturation := saturation c;
     lastModified := now |}.

(** Nothing catches a throwing [setItem]: the handler ends there, with the
    list already set and no alert shown. *)
Definition saveCustomization (now : Z) (accepted : bool) (s : State) : State :=
  let newCustomization := restamp (customization s) now in
  let updated :=
    (filter (title_differs (title newCustomization)) (savedCustomizations s)
     ++ [newCustomization])%list in
  let s1 := setSavedCustomizations updated s in
  match localStorage_setItem accepted updated s1 with
  | Some s2 => alert ("Saved " ++ JS.dquote ++ title (customization s) ++ JS.dquote) s2
  | None => s1
  end.

Definition loadCustomization (data : CustomizationData) (s : State) : State :=
  alert ("Loaded " ++ JS.dquote ++ title data ++ JS.dquote)
    (setCustomization (fun _ => data) s).

Definition deleteCustomization (t : string) (accepted : bool) (s : State) : State :=
  let updated := filter (title_differs t) (savedCustomizations s) in
  let s1 := setSavedCustomizations updated s in
  match localStorage_setItem accepted updated s1 with
  | Some s2 => alert ("Deleted " ++ JS.dquote ++ t ++ JS.dquote) s2
  | None => s1
  end.

Inductive ImageType : Type := front | back | spine.

Definition ImageType_str (t : ImageType) : string :=
  match t with
  | front => "front"
  | back => "back"
  | spine => "spine"
  end.

(** [{ ...prev, [key]: result, lastModified: now }] for a computed [key]. *)
Definition spread_image (prev : CustomizationData) (key result : string) (now : Z)
    : CustomizationData :=
  {| frontImage := if key =? "frontImage" then result else frontImage prev;
     backImage := if key =? "backImage" then result else backImage prev;
     spineImage := if key =? "spineImage" then result else spineImage prev;
     frameColor := frameColor prev;
     platform := platform prev;
     title := title prev;
     brightness := brightness prev;
     contrast := contrast prev;
     saturation := saturation prev;
     lastModified := now |}.

(** The [reader.onload] callback of [handleImageUpload(file, type)]: [result]
    is the data URL the reader produced for [file], [now] the time at which
    the read completed. *)
Definition handleImageUpload_onload (result : string) (type : ImageType) (now : Z)
    (s : State) : State :=
  alert (JS.capitalize (ImageType_str type) ++ " image uploaded")
    (setCustomization
      (fun prev => spread_image prev (ImageType_str type ++ "Image") result now)
      s).

Definition resetCustomization (initialData : option Props.initialData) (now : Z)
    (s : State) : State :=
  alert "Reset to defaults"
    (setCustomization (fun _ => defaults initialData now) s).

Definition exportImage (s : State) : State :=
  alert "Export feature coming soon!" s.

(** *** Inline handlers of the panel *)

(** Title input: [prev => ({ ...prev, title: e.target.value })] *)
Definition onTitleChange (value : string) : State -> State :=
  setCustomization (fun prev =>
    {| frontImage := frontImage prev;
       backImage := backImage prev;
       spineImage := spineImage prev;
       frameColor := frameColor prev;
       platform := platform prev;
       title := value;
       brightness := brightness prev;
       contrast := contrast prev;
       saturation := saturation prev;
       lastModified := lastModified prev |}).

(** Platform select:
    [prev => ({ ...prev, platform: value, frameColor: PLATFORM_CONFIGS[value].baseColor })] *)
Definition onPlatformChange (value : Platform) : State -> State :=
  setCustomization (fun prev =>
    {| frontImage := frontImage prev;
       backImage := backImage prev;
       spineImage := spineImage prev;
       frameColor := baseColor (PLATFORM_CONFIGS value);
       platform := value;
       title := title prev;
       brightness := brightness prev;
       contrast := contrast prev;
       saturation := saturation prev;
       lastModified := lastModified prev |}).

(** Colour picker, colour text input and preset buttons:
    [prev => ({ ...prev, frameColor: value })] *)
Definition onFrameColorChange (value : string) : State -> State :=
  setCustomization (fun prev =>
    {| frontImage := frontImage prev;
       backImage := backImage prev;
       spineImage := spineImage prev;
       frameColor := value;
       platform := platform prev;
       title := title prev;
       brightness := brightness prev;
       contrast := contrast prev;
       saturation := saturation prev;
       lastModified := lastModified prev |}).

Definition onPresetClick (preset : ColorPreset) : State -> State :=
  onFrameColorChange (color preset).

(** Sliders: [([value]) => setCustomization(prev => ({ ...prev, brightness: value }))] *)
Definition onBrightnessChange (value : number) : State -> State :=
  setCustomization (fun prev =>
    {| frontImage := frontImage prev;
       backImage := backImage prev;
       spineImage := spineImage prev;
       frameColor := frameColor prev;
       platform := platform prev;
       title := title prev;
       brightness := value;
       contrast := contrast prev;
       saturation := saturation prev;
       lastModified := lastModified prev |}).

Definition onContrastChange (value : number) : State -> State :=
  setCustomization (fun prev =>
    {| frontImage := frontImage prev;
       backImage := backImage prev;
       spineImage := spineImage prev;
       frameColor := frameColor prev;
       platform := platform prev;
       title := title prev;
       brightness := brightness prev;
       contrast := value;
       saturation := saturation prev;
       lastModified := lastModified prev |}).

Definition onSaturationChange (value : number) : State -> State :=
  setCustomization (fun prev =>
    {| frontImage := frontImage prev;
       backImage := backImage prev;
       spineImage := spineImage prev;
       frameColor := frameColor prev;
       platform := platform prev;
       title := title prev;
       brightness := brightness prev;
       contrast := contrast prev;
       saturation := value;
       lastModified := lastModified prev |}).

(** The saved tab lists [savedCustomizations] with, per entry, a load and a
    delete button; [index] is the position of the entry clicked. *)
Definition clickLoad (index : nat) (s : State) : State :=
  match nth_error (savedCustomizations s) index with
  | Some saved => loadCustomization saved s
  | None => s
  end.

Definition clickDelete (index : nat) (accepted : bool) (s : State) : State :=
  match nth_error (savedCustomizations s) index with
  | Some saved => deleteCustomization (title saved) accepted s
  | None => s
  end.

Definition Platform_str (p : Platform) : string :=
  match p with
  | xbox => "xbox"
  | playstation => "playstation"
  | pc => "pc"
  | standard => "standard"
  end.

(** The props the canvas hands to [<CustomizableBoxModel .. />]. *)
Definition model_props (c : CustomizationData) : CustomizableBoxModel.Props :=
  {| CustomizableBoxModel.frontImage := frontImage c;
     CustomizableBoxModel.backImage := backImage c;
     CustomizableBoxModel.spineImage := spineImage c;
     CustomizableBoxModel.frameColor := frameColor c;
     CustomizableBoxModel.brightness := brightness c;
     CustomizableBoxModel.contrast := contrast c;
     CustomizableBoxModel.saturation := saturation c;
     CustomizableBoxModel.platform := Platform_str (platform c) |}.

(** *** Sessions *)

(** What can happen to an open customizer.  [ImageLoaded] is the completion
    of a file read started by an upload; [DeleteClick] is the delete button of
    a listed entry, [Delete] the call [deleteCustomization(title)] for any
    title.  [accepted] tells whether the browser accepts the storage write
    the handler makes. *)
Inductive Event : Type :=
| TitleInput (value : string)
| PlatformSelect (value : Platform)
| FrameColorInput (value : string)
| PresetClick (preset : ColorPreset)
| BrightnessSlide (value : number)
| ContrastSlide (value : number)
| SaturationSlide (value : number)
| TabChange (tab : string)
| SaveClick (now : Z) (accepted : bool)
| ResetClick (now : Z)
| LoadClick (index : nat)
| DeleteClick (index : nat) (accepted : bool)
| Delete (t : string) (accepted : bool)
| ImageLoaded (result : string) (type : ImageType) (now : Z)
| ExportClick.

Definition handle (initialData : option Props.initialData) (e : Event) : State -> State :=
  match e with
  | TitleInput value => onTitleChange value
  | PlatformSelect value => onPlatformChange value
  | FrameColorInput value => onFrameColorChange value
  | PresetClick preset => onPresetClick preset
  | BrightnessSlide value => onBrightnessChange value
  | ContrastSlide value => onContrastChange value
  | SaturationSlide value => onSaturationChange value
  | TabChange tab => setActiveTab tab
  | SaveClick now accepted => saveCustomization now accepted
  | ResetClick now => resetCustomization initialData now
  | LoadClick index => clickLoad index
  | DeleteClick index accepted => clickDelete index accepted
  | Delete t accepted => deleteCustomization t accepted
  | ImageLoaded result type now => handleImageUpload_onload result type now
  | ExportClick => exportImage
  end.

(** The states a customizer can be in: a first session opens over an empty
    storage; events are handled; the customizer is closed and opened again
    (possibly with other props) over whatever the storage then holds. *)
Inductive reachable : option Props.initialData -> State -> Prop :=
| reachable_open : forall initialData now,
    reachable initialData (mount initialData now None)
| reachable_event : forall initialData e s,
    reachable initialData s ->
    reachable initialData (handle initialData e s)
| reachable_reopen : forall initialData s initialData' now,
    reachable initialData s ->
    reachable initialData' (mount initialData' now (localStorage s)).

(** The persisted collection: what the mount effect would read back from
    [STORAGE_KEY] (nothing stored reads as the empty list). *)
Definition persisted (s : State) : list CustomizationData :=
  match localStorage s with
  | Some saved => saved
  | None => []
  end.

(** The fields of a record, to say which ones an operation leaves alone. *)
Inductive Field : Type :=
| FrontImage | BackImage | SpineImage | FrameColor | PlatformField | Title
| Brightness | Contrast | Saturation | LastModified.

Definition agree (f : Field) (c c' : CustomizationData) : Prop :=
  match f with
  | FrontImage => frontImage c = frontImage c'
  | BackImage => backImage c = backImage c'
  | SpineImage => spineImage c = spineImage c'
  | FrameColor => frameColor c = frameColor c'
  | PlatformField => platform c = platform c'
  | Title => title c = title c'
  | Brightness => brightness c = brightness c'
  | Contrast => contrast c = contrast c'
  | Saturation => saturation c = saturation c'
  | LastModified => lastModified c = lastModified c'
  end.

(** [c] and [c'] agree on every field outside [fs]. *)
Definition agree_except (fs : list Field) (c c' : CustomizationData) : Prop :=
  forall f, ~ In f fs -> agree f c c'.

(** The field an image type writes: [`${type}Image`]. *)
Definition ImageType_field (t : ImageType) : Field :=
  match t with
  | front => FrontImage
  | back => BackImage
  | spine => SpineImage
  end.

(** The three image slots of a record, read by image type. *)
Definition image_slot (t : ImageType) (c : CustomizationData) : string :=
  match t with
  | front => frontImage c
  | back => backImage c
  | spine => spineImage c
  end.

(** Everything of the state but the current record. *)
Definition same_store (s s' : State) : Prop :=
  savedCustomizations s' = savedCustomizations s /\
  localStorage s' = localStorage s /\
  activeTab s' = activeTab s.

(** A sample session: opened for xbox with front art only and no title. *)
Definition xbox_session : option Props.initialData :=
  Some {| Props.frontImageUrl := "front.png";
          Props.backImageUrl := None;
          Props.spineImageUrl := None;
          Props.platform := xbox;
          Props.title := None |}.

(** A state in which storage and list disagree: Custom Box Art is saved, the
    record is renamed Halo and saved, and the storage rejects the write of
    the delete of Custom Box Art. *)
Definition stale_storage : State :=
  handle xbox_session (Delete "Custom Box Art" false)
    (handle xbox_session (SaveClick 2 true)
       (handle xbox_session (TitleInput "Halo")
          (handle xbox_session (SaveClick 1 true)
             (mount xbox_session 0 None)))).

(** At most one record per title. *)
Definition unique_titles (l : list CustomizationData) : Prop :=
  NoDup (List.map title l).

(** The session invariant: the saved list and the persisted collection have
    unique titles each. *)
Definition store_inv (s : State) : Prop :=
  unique_titles (savedCustomizations s) /\ unique_titles (persisted s).

(** The records of [l] titled [t]. *)
Definition titled (t : string) (l : list CustomizationData) : list CustomizationData :=
  filter (fun c => title c =? t) l.

End Customizer.

(** ** BoxArt3DViewer.tsx: the viewer's box model *)

Module Viewer.

Record Euler : Type := { x : number; y : number; z : number }.

(** The three.js group behind [groupRef]. *)
Record Group : Type := { rotation : Euler; scale : number }.

Definition setScalar (s : number) (g : Group) : Group :=
  {| rotation := rotation g; scale := s |}.

(** [BoxArtModel]: the ref and the two [useState] cells. *)
Record Model : Type := {
  groupRef_current : option Group;
  hovered : bool;
  autoRotate : bool
}.

(** After the first commit: [rotation={[-0.1, 0.3, 0]}], unit scale. *)
Definition mounted : Model :=
  {| groupRef_current :=
       Some {| rotation := {| x := -0.1; y := 0.3; z := 0 |}; scale := 1 |};
     hovered := false;
     autoRotate := true |}.

Definition setHovered (b : bool) (m : Model) : Model :=
  {| groupRef_current := groupRef_current m; hovered := b; autoRotate := autoRotate m |}.

Definition setAutoRotate (b : bool) (m : Model) : Model :=
  {| groupRef_current := groupRef_current m; hovered := hovered m; autoRotate := b |}.

Definition toggleAutoRotate (m : Model) : Model :=
  setAutoRotate (negb (autoRotate m)) m.

Section WithSin.

Variable Math_sin : number -> number.

(** The rotation part of the frame callback. *)
Definition rotate (elapsedTime : number) (g : Group) : Group :=
  {| rotation :=
       {| x := Math_sin (elapsedTime * 0.4) * 0.5;
          y := y (rotation g) + 0.01;
          z := Math_sin (elapsedTime * 0.3) * 0.2 |};
     scale := scale g |}.

(** The [useFrame] callback at clock time [elapsedTime].  [None] is the
    [TypeError] of reading [scale] through a null ref. *)
Definition useFrame (elapsedTime : number) (m : Model) : option Model :=
  let current :=
    match groupRef_current m with
    | Some g => if autoRotate m then Some (rotate elapsedTime g) else Some g
    | None => None
    end in
  if andb (hovered m) (negb (autoRotate m)) then
    match current with
    | Some g =>
        Some {| groupRef_current := Some (setScalar 1.05 g);
                hovered := hovered m; autoRotate := autoRotate m |}
    | None => None
    end
  else if negb (autoRotate m) then
    match current with
    | Some g =>
        Some {| groupRef_current := Some (setScalar 1 g);
                hovered := hovered m; autoRotate := autoRotate m |}
    | None => None
    end
  else
    Some {| groupRef_current := current;
            hovered := hovered m; autoRotate := autoRotate m |}.

Inductive Event : Type :=
| Frame (elapsedTime : number)
| Click
| PointerOver
| PointerOut.

Definition step (e : Event) (m : Model) : option Model :=
  match e with
  | Frame elapsedTime => useFrame elapsedTime m
  | Click => Some (toggleAutoRotate m)
  | PointerOver => Some (setHovered true m)
  | PointerOut => Some (setHovered false m)
  end.

Fixpoint run (es : list Event) (m : Model) : option Model :=
  match es with
  | [] => Some m
  | e :: es' =>
      match step e m with
      | Some m' => run es' m'
      | None => None
      end
  end.

End WithSin.

Definition is_click (e : Event) : bool :=
  match e with
  | Click => true
  | _ => false
  end.

End Viewer.

(** ** BoxArtCustomizer.tsx: what the panel shows *)

Module CustomizerView.

(** The preset button that carries the highlight class:
    [customization.frameColor === preset.color]. *)
Definition preset_highlighted (c : Customizer.CustomizationData)
    (preset : Customizer.ColorPreset) : bool :=
  Customizer.frameColor c =? Customizer.color preset.

(** The saved tab shows its placeholder when
    [savedCustomizations.length === 0]. *)
Definition placeholder_shown (s : Customizer.State) : bool :=
  (List.length (Customizer.savedCustomizations s) =? 0)%nat.

(** The events whose handlers call [localStorage.setItem]. *)
Definition writes_storage (e : Customizer.Event) : bool :=
  match e with
  | Customizer.SaveClick _ _ | Customizer.DeleteClick _ _
  | Customizer.Delete _ _ => true
  | _ => false
  end.

End CustomizerView.

(** ** BoxArt3DViewer.tsx: the viewer's props, table and element tree *)

Module BoxArtModel.

Inductive Platform : Type := xbox | xbox360 | playstation | pc | standard.

Record PlatformConfig : Type := {
  width : number;
  height : number;
  depth : number;
  color : string;
  transparency : number;
  metalness : number;
  roughness : number
}.

Definition PLATFORM_CONFIGS (p : Platform) : PlatformConfig :=
  match p with
  | xbox =>
      {| width := 2.6; height := 3.5; depth := 0.2; color := "#107C10";
         transparency := 0.15; metalness := 0.7; roughness := 0.3 |}
  | xbox360 =>
      {| width := 2.6; height := 3.5; depth := 0.2; color := "#9ACD32";
         transparency := 0.15; metalness := 0.7; roughness := 0.3 |}
  | playstation =>
      {| width := 2.75; height := 3.75; depth := 0.2; color := "#0070D1";
         transparency := 0.15; metalness := 0.7; roughness := 0.3 |}
  | pc =>
      {| width := 2.75; height := 3.75; depth := 0.22; color := "#606060";
         transparency := 0.2; metalness := 0.8; roughness := 0.2 |}
  | standard =>
      {| width := 2.6; height := 3.5; depth := 0.2; color := "#707070";
         transparency := 0.2; metalness := 0.6; roughness := 0.4 |}
  end.

(** [BoxArt3DViewerProps] *)
Module Props.
Record t : Type := {
  frontImageUrl : string;
  backImageUrl : option string;
  spineImageUrl : option string;
  width : option number;
  height : option number;
  depth : option number;
  platform : option Platform
}.
End Props.

(** [a || d] on [number | undefined]: zero and [undefined] are falsy. *)
Definition or_num (a : option number) (d : number) : number :=
  match a with
  | Some q => if Qeq_bool q 0 then d else q
  | None => d
  end.

(** The default parameter [platform = 'standard']. *)
Definition platform_of (p : Props.t) : Platform :=
  match Props.platform p with
  | Some v => v
  | None => standard
  end.

Definition config (p : Props.t) : PlatformConfig := PLATFORM_CONFIGS (platform_of p).

(** [[width, height, depth]] as handed to [<boxGeometry args=.. />]. *)
Definition box_args (p : Props.t) : number * number * number :=
  (or_num (Props.width p) (width (config p)),
   or_num (Props.height p) (height (config p)),
   or_num (Props.depth p) (depth (config p))).

(** The images the three textures are loaded from. *)
Definition front_source (p : Props.t) : string := Props.frontImageUrl p.

Definition back_source (p : Props.t) : string :=
  JS.or_str (Props.backImageUrl p) (Props.frontImageUrl p).

Definition spine_source (p : Props.t) : string :=
  JS.or_str (Props.spineImageUrl p) (Props.frontImageUrl p).

(** The element tree [BoxArtModel] returns. *)
Definition render (useTexture : string -> CustomizableBoxModel.Texture) (p : Props.t)
    : CustomizableBoxModel.GroupElement :=
  let frontTexture := useTexture (front_source p) in
  let backTexture := useTexture (back_source p) in
  let spineTexture := useTexture (spine_source p) in
  {| CustomizableBoxModel.rotation := (-0.1, 0.3, 0);
     CustomizableBoxModel.boxGeometry_args := box_args p;
     CustomizableBoxModel.materials :=
       [ {| CustomizableBoxModel.attach := "material-0";
            CustomizableBoxModel.color := Some (color (config p));
            CustomizableBoxModel.map := None |};
         {| CustomizableBoxModel.attach := "material-1";
            CustomizableBoxModel.color := None;
            CustomizableBoxModel.map := Some spineTexture |};
         {| CustomizableBoxModel.attach := "material-2";
            CustomizableBoxModel.color := Some (color (config p));
            CustomizableBoxModel.map := None |};
         {| CustomizableBoxModel.attach := "material-3";
            CustomizableBoxModel.color := Some (color (config p));
            CustomizableBoxModel.map := None |};
         {| CustomizableBoxModel.attach := "material-4";
            CustomizableBoxModel.color := None;
            CustomizableBoxModel.map := Some frontTexture |};
         {| CustomizableBoxModel.attach := "material-5";
            CustomizableBoxModel.color := None;
            CustomizableBoxModel.map := Some backTexture |} ] |}.

(** A face as the eye sees it: its slot, its flat colour, the image of its
    texture. *)
Definition face (m : CustomizableBoxModel.Material)
    : string * option string * option string :=
  (CustomizableBoxModel.attach m, CustomizableBoxModel.color m,
   option_map CustomizableBoxModel.image (CustomizableBoxModel.map m)).

(** The customizer's platforms are four of the viewer's. *)
Definition of_customizer (p : Customizer.Platform) : Platform :=
  match p with
  | Customizer.xbox => xbox
  | Customizer.playstation => playstation
  | Customizer.pc => pc
  | Customizer.standard => standard
  end.

(** A size prop that is absent, zero or positive. *)
Definition absent_or_nonneg (o : option number) : Prop :=
  match o with
  | Some q => (0 <= q)%Q
  | None => True
  end.

(** The group of the model as mounted. *)
Definition mounted_group : Viewer.Group :=
  {| Viewer.rotation := {| Viewer.x := -0.1; Viewer.y := 0.3; Viewer.z := 0 |};
     Viewer.scale := 1 |}.

(** The frames of a run during which the box turns: those met while the
    auto-rotate flag, [a] at the start, is on. *)
Fixpoint turning_frames (es : list Viewer.Event) (a : bool) : nat :=
  match es with
  | [] => 0
  | Viewer.Frame _ :: es' => (if a then 1 else 0) + turning_frames es' a
  | Viewer.Click :: es' => turning_frames es' (negb a)
  | _ :: es' => turning_frames es' a
  end.

End BoxArtModel.

(** ** Artwork3DPreview.tsx and BoxArt3DPreviewDemo.tsx *)

Module Demo.

Record SampleImage : Type := {
  front : string;
  back : string;
  spine : string;
  platform : Customizer.Platform;
  title : string
}.

(** The two [useState] cells of the demo page. *)
Record State : Type := {
  showCustomizer : bool;
  selectedSample : option SampleImage
}.

Definition initial : State := {| showCustomizer := false; selectedSample := None |}.

(** The Customize button of a sample card. *)
Definition onCustomize (imageSet : SampleImage) (_ : State) : State :=
  {| showCustomizer := true; selectedSample := Some imageSet |}.

(** The [onClose] callback handed to the customizer. *)
Definition onClose (_ : State) : State :=
  {| showCustomizer := false; selectedSample := None |}.

(** [showCustomizer && selectedSample && <BoxArtCustomizer .. />]: the
    [initialData] of the customizer when the page mounts one.  The customizer
    itself renders nothing unless [isOpen], which is [showCustomizer]. *)
Definition customizer (st : State) : option Customizer.Props.initialData :=
  if showCustomizer st then
    match selectedSample st with
    | Some selected =>
        Some {| Customizer.Props.frontImageUrl := front selected;
                Customizer.Props.backImageUrl := Some (back selected);
                Customizer.Props.spineImageUrl := Some (spine selected);
                Customizer.Props.platform := platform selected;
                Customizer.Props.title := Some (title selected) |}
    | None => None
    end
  else None.

(** The props a sample card hands, through [Artwork3DPreview], to the
    viewer. *)
Definition preview (imageSet : SampleImage) : BoxArtModel.Props.t :=
  {| BoxArtModel.Props.frontImageUrl := front imageSet;
     BoxArtModel.Props.backImageUrl := Some (back imageSet);
     BoxArtModel.Props.spineImageUrl := Some (spine imageSet);
     BoxArtModel.Props.width := None;
     BoxArtModel.Props.height := None;
     BoxArtModel.Props.depth := None;
     BoxArtModel.Props.platform := Some (BoxArtModel.of_customizer (platform imageSet)) |}.

Inductive Event : Type :=
| Customize (imageSet : SampleImage)
| Close.

Definition handle (e : Event) : State -> State :=
  match e with
  | Customize imageSet => onCustomize imageSet
  | Close => onClose
  end.

(** The page after a sequence of events, from its initial state. *)
Definition after (es : list Event) : State :=
  fold_left (fun st e => handle e st) es initial.

End Demo.

(** * Properties of the customizer store *)

Section CustomizerFacts.

Import Customizer.

Local Ltac frame_fields :=
  let f := fresh "f" in
  let Hf := fresh "Hf" in
  intros f Hf; destruct f; simpl; try reflexivity;
  exfalso; apply Hf; simpl; tauto.

Local Ltac store_untouched := repeat split; reflexivity.

(** *** Reset *)

Lemma defaults_platform initialData now :
  platform (defaults initialData now) = initial_platform initialData.
Proof. reflexivity. Qed.

Lemma defaults_frameColor initialData now :
  frameColor (defaults initialData now)
  = baseColor (PLATFORM_CONFIGS (initial_platform initialData)).
Proof. reflexivity. Qed.

(** C1, as stated, fails: in a session opened for xbox the user selects
    playstation and then resets.  The record holds playstation at the moment
    of the reset, yet the frame colour after the reset is xbox green, not
    the playstation base colour. *)
Lemma reset_current_platform_counterexample :
  let s := handle xbox_session (PlatformSelect playstation)
             (mount xbox_session 0 None) in
  reachable xbox_session s /\
  platform (customization s) = playstation /\
  frameColor (customization (handle xbox_session (ResetClick 1) s)) = "#107C10" /\
  frameColor (customization (handle xbox_session (ResetClick 1) s))
  <> baseColor (PLATFORM_CONFIGS (platform (customization s))).
Proof.
  cbv zeta. split; [| split; [| split]].
  - apply reachable_event, reachable_open.
  - reflexivity.
  - reflexivity.
  - vm_compute. discriminate.
Qed.

(** C1, amended: whatever the current record holds, reset puts the session's
    initial platform back (standard when the session has no initial data),
    sets the frame colour to that platform's base colour, which is then the
    base colour of the platform the record holds after the reset, and sets
    brightness, contrast and saturation to 1.0. *)
Theorem reset_restores_initial_defaults :
  forall (initialData : option Props.initialData) (now : Z) (s : State),
    let c := customization (handle initialData (ResetClick now) s) in
    platform c = initial_platform initialData /\
    frameColor c = baseColor (PLATFORM_CONFIGS (initial_platform initialData)) /\
    frameColor c = baseColor (PLATFORM_CONFIGS (platform c)) /\
    brightness c = 1.0%Q /\ contrast c = 1.0%Q /\ saturation c = 1.0%Q.
Proof.
  intros initialData now s c. subst c. cbn [handle].
  unfold resetCustomization. cbn [alert setCustomization customization].
  rewrite defaults_platform, defaults_frameColor.
  repeat split; reflexivity.
Qed.

(** *** Field updates *)

(** C2, as stated, fails twice over.  The title handler reads no clock: in a
    session opened at time 1000 an edit of the title, whenever it is made,
    leaves lastModified at 1000.  And the platform control does not replace
    exactly its field: it rewrites the frame colour as well. *)
Lemma update_stamps_counterexample :
  let s := mount None 1000 None in
  lastModified (customization (handle None (TitleInput "Halo") s)) = 1000%Z /\
  frameColor (customization s) = "#707070" /\
  frameColor (customization (handle None (PlatformSelect xbox) s)) = "#107C10".
Proof. cbv zeta. repeat split. Qed.

(** C2, amended: every control of the panel replaces its field with the
    value given and always succeeds (the handlers are total).  The title,
    frame-colour, brightness, contrast and saturation controls change that
    one field and nothing else, lastModified included; the platform control
    changes platform and frameColor, the latter to the platform's base
    colour; a completed image upload changes its slot and stamps
    lastModified.  None of them touches the saved list or the storage. *)
Theorem update_replaces_field :
  forall (initialData : option Props.initialData) (s : State),
    let c := customization s in
    (forall v, let s' := handle initialData (TitleInput v) s in
       title (customization s') = v /\
       agree_except [Title] c (customization s') /\ same_store s s') /\
    (forall v, let s' := handle initialData (FrameColorInput v) s in
       frameColor (customization s') = v /\
       agree_except [FrameColor] c (customization s') /\ same_store s s') /\
    (forall p, let s' := handle initialData (PresetClick p) s in
       frameColor (customization s') = color p /\
       agree_except [FrameColor] c (customization s') /\ same_store s s') /\
    (forall v, let s' := handle initialData (BrightnessSlide v) s in
       brightness (customization s') = v /\
       agree_except [Brightness] c (customization s') /\ same_store s s') /\
    (forall v, let s' := handle initialData (ContrastSlide v) s in
       contrast (customization s') = v /\
       agree_except [Contrast] c (customization s') /\ same_store s s') /\
    (forall v, let s' := handle initialData (SaturationSlide v) s in
       saturation (customization s') = v /\
       agree_except [Saturation] c (customization s') /\ same_store s s') /\
    (forall v, let s' := handle initialData (PlatformSelect v) s in
       platform (customization s') = v /\
       frameColor (customization s') = baseColor (PLATFORM_CONFIGS v) /\
       agree_except [PlatformField; FrameColor] c (customization s') /\
       same_store s s') /\
    (forall result type now,
       let s' := handle initialData (ImageLoaded result type now) s in
       image_slot type (customization s') = result /\
       lastModified (customization s') = now /\
       agree_except [ImageType_field type; LastModified] c (customization s') /\
       same_store s s').
Proof.
  intros initialData s c. subst c.
  repeat match goal with |- _ /\ _ => split end;
    intros; cbv zeta; cbn [handle];
    try (repeat split; solve [reflexivity | frame_fields]).
  destruct type; repeat split; solve [reflexivity | frame_fields].
Qed.

End CustomizerFacts.

(** * The saved collection *)

Section SavedCollection.

Import Customizer.
Local Open Scope list_scope.

Lemma title_differs_spec t c : title_differs t c = true <-> title c <> t.
Proof.
  unfold title_differs. rewrite negb_true_iff.
  destruct (String.eqb_spec (title c) t) as [E | E]; split; intro H;
    congruence.
Qed.

Lemma in_without t l c :
  In c (filter (title_differs t) l) <-> In c l /\ title c <> t.
Proof. rewrite filter_In, title_differs_spec. reflexivity. Qed.

Lemma titles_filter_incl (f : CustomizationData -> bool) l t :
  In t (List.map title (filter f l)) -> In t (List.map title l).
Proof.
  rewrite !in_map_iff. intros [c [E H]]. exists c. split; [assumption |].
  apply filter_In in H. tauto.
Qed.

Lemma without_absent t l : ~ In t (List.map title (filter (title_differs t) l)).
Proof.
  rewrite in_map_iff. intros [c [E H]]. apply in_without in H. tauto.
Qed.

Lemma unique_titles_filter (f : CustomizationData -> bool) l :
  unique_titles l -> unique_titles (filter f l).
Proof.
  unfold unique_titles. induction l as [| c l IH]; simpl; intro U.
  - constructor.
  - inversion U as [| ? ? Hc Hl]; subst.
    destruct (f c); simpl; auto.
    constructor; auto. intro H. apply Hc. eapply titles_filter_incl, H.
Qed.

Lemma without_id t l :
  ~ In t (List.map title l) -> filter (title_differs t) l = l.
Proof.
  intro H. apply forallb_filter_id, forallb_forall. intros c Hc.
  apply title_differs_spec. intro E. apply H, in_map_iff. eauto.
Qed.

(** Filtering a title out of a collection with unique titles drops exactly
    one record when the title occurs. *)
Lemma without_length t l :
  unique_titles l -> In t (List.map title l) ->
  S (List.length (filter (title_differs t) l)) = List.length l.
Proof.
  unfold unique_titles. induction l as [| c l IH]; simpl; intros U H.
  - contradiction.
  - inversion U as [| ? ? Hc Hl]; subst.
    destruct (title_differs t c) eqn:D.
    + apply title_differs_spec in D. simpl. f_equal. apply IH; [assumption |].
      destruct H; congruence.
    + apply not_true_iff_false in D. rewrite title_differs_spec in D.
      assert (E : title c = t) by (destruct (string_dec (title c) t); tauto).
      subst t. rewrite without_id by assumption. reflexivity.
Qed.

Lemma unique_titles_upsert c l :
  unique_titles l ->
  unique_titles (filter (title_differs (title c)) l ++ [c]).
Proof.
  intro U. unfold unique_titles. rewrite map_app. apply NoDup_app.
  - apply (unique_titles_filter _ _ U).
  - simpl. constructor; [simpl; tauto | constructor].
  - intros t Ht [E | []]. subst t. exact (without_absent _ _ Ht).
Qed.

Lemma titled_without t l : titled t (filter (title_differs t) l) = [].
Proof.
  unfold titled. induction l as [| c l IH]; simpl; [reflexivity |].
  unfold title_differs at 1. destruct (title c =? t) eqn:E; simpl.
  - exact IH.
  - rewrite E. exact IH.
Qed.

Lemma titled_upsert c l :
  titled (title c) (filter (title_differs (title c)) l ++ [c]) = [c].
Proof.
  unfold titled. rewrite filter_app.
  change (filter (fun c0 => title c0 =? title c)
            (filter (title_differs (title c)) l))
    with (titled (title c) (filter (title_differs (title c)) l)).
  rewrite titled_without. simpl. rewrite String.eqb_refl. reflexivity.
Qed.

Lemma restamp_title c now : title (restamp c now) = title c.
Proof. reflexivity. Qed.

(** The saved list after a save or a delete, whatever becomes of the write,
    and the storage entry after it, by the outcome of the write. *)
Lemma save_list now accepted s :
  savedCustomizations (saveCustomization now accepted s)
  = filter (title_differs (title (customization s))) (savedCustomizations s)
    ++ [restamp (customization s) now].
Proof. destruct accepted; reflexivity. Qed.

Lemma save_accepted now s :
  persisted (saveCustomization now true s)
  = savedCustomizations (saveCustomization now true s).
Proof. reflexivity. Qed.

Lemma save_rejected now s :
  localStorage (saveCustomization now false s) = localStorage s.
Proof. reflexivity. Qed.

Lemma save_customization now accepted s :
  customization (saveCustomization now accepted s) = customization s.
Proof. destruct accepted; reflexivity. Qed.

Lemma delete_list t accepted s :
  savedCustomizations (deleteCustomization t accepted s)
  = filter (title_differs t) (savedCustomizations s).
Proof. destruct accepted; reflexivity. Qed.

Lemma delete_accepted t s :
  persisted (deleteCustomization t true s)
  = savedCustomizations (deleteCustomization t true s).
Proof. reflexivity. Qed.

Lemma delete_rejected t s :
  localStorage (deleteCustomization t false s) = localStorage s.
Proof. reflexivity. Qed.

Lemma delete_customization t accepted s :
  customization (deleteCustomization t accepted s) = customization s.
Proof. destruct accepted; reflexivity. Qed.

Lemma store_inv_mount initialData now storage :
  unique_titles (match storage with Some l => l | None => [] end) ->
  store_inv (mount initialData now storage).
Proof. intro U. split; exact U. Qed.

Lemma store_inv_save now accepted s :
  store_inv s -> store_inv (saveCustomization now accepted s).
Proof.
  intros [U P].
  assert (U' : unique_titles (savedCustomizations (saveCustomization now accepted s))).
  { rewrite save_list, <- (restamp_title _ now).
    apply unique_titles_upsert, U. }
  split; [exact U' |]. destruct accepted.
  - rewrite save_accepted. exact U'.
  - unfold persisted. rewrite save_rejected. exact P.
Qed.

Lemma store_inv_delete t accepted s :
  store_inv s -> store_inv (deleteCustomization t accepted s).
Proof.
  intros [U P].
  assert (U' : unique_titles (savedCustomizations (deleteCustomization t accepted s))).
  { rewrite delete_list. apply unique_titles_filter, U. }
  split; [exact U' |]. destruct accepted.
  - rewrite delete_accepted. exact U'.
  - unfold persisted. rewrite delete_rejected. exact P.
Qed.

Lemma store_inv_handle initialData e s :
  store_inv s -> store_inv (handle initialData e s).
Proof.
  intro I. destruct e; cbn [handle];
    try exact I;
    try (destruct I as [U E]; split; [exact U | exact E]).
  - apply store_inv_save, I.
  - unfold clickLoad. destruct (nth_error _ _); [| exact I].
    destruct I as [U E]; split; [exact U | exact E].
  - unfold clickDelete. destruct (nth_error _ _); [| exact I].
    apply store_inv_delete, I.
  - apply store_inv_delete, I.
Qed.

Lemma reachable_store_inv initialData s :
  reachable initialData s -> store_inv s.
Proof.
  induction 1 as [init now | init e s R IH | init s init' now R IH].
  - apply store_inv_mount. constructor.
  - apply store_inv_handle, IH.
  - apply store_inv_mount. destruct IH as [U P]. exact P.
Qed.

(** *** Save, load, delete *)

(** C3: after save(), whatever becomes of the storage write, the saved list
    holds the current record stamped with the time of the save, which
    differs from the record before the save in lastModified only; loading
    any entry titled T makes the current record equal to that stamped
    record.  When the write was accepted the storage holds the same list,
    and the same is true of a load in a session opened later over it. *)
Theorem save_then_load :
  forall (initialData : option Props.initialData) (s : State) (now : Z)
         (accepted : bool),
    let saved := restamp (customization s) now in
    let s' := handle initialData (SaveClick now accepted) s in
    agree_except [LastModified] (customization s) saved /\
    lastModified saved = now /\
    (exists index, nth_error (savedCustomizations s') index = Some saved) /\
    (forall index data,
       nth_error (savedCustomizations s') index = Some data ->
       title data = title (customization s) ->
       customization (handle initialData (LoadClick index) s') = saved) /\
    (accepted = true ->
     persisted s' = savedCustomizations s' /\
     forall initialData' now' index data,
       let r := mount initialData' now' (localStorage s') in
       nth_error (savedCustomizations r) index = Some data ->
       title data = title (customization s) ->
       customization (handle initialData' (LoadClick index) r) = saved).
Proof.
  intros initialData s now accepted saved s'.
  assert (only : forall data, In data (savedCustomizations s') ->
                   title data = title (customization s) -> data = saved).
  { intros data H E. subst s'; cbn [handle] in H.
    rewrite save_list in H.
    apply in_app_or in H. destruct H as [H | [H | []]];
      [| symmetry; exact H].
    apply in_without in H. tauto. }
  split; [| split; [| split; [| split]]].
  - intros f Hf; destruct f; simpl; try reflexivity.
    exfalso; apply Hf; simpl; tauto.
  - reflexivity.
  - apply In_nth_error. subst s'; cbn [handle].
    rewrite save_list. apply in_or_app. right. left. reflexivity.
  - intros index data H E. cbn [handle]. unfold clickLoad. rewrite H.
    cbn. apply only; [eapply nth_error_In, H | exact E].
  - intro A. subst accepted. split; [reflexivity |].
    intros initialData' now' index data r H E. cbn [handle].
    unfold clickLoad. rewrite H. cbn. apply only; [| exact E].
    apply nth_error_In in H. exact H.
Qed.

(** C3 at work: a titled record is saved at time 7 and loaded back, in the
    same session after a rejected write, and in a later session after an
    accepted one. *)
Lemma save_then_load_witness :
  let s := handle xbox_session (TitleInput "Halo") (mount xbox_session 0 None) in
  customization
    (handle xbox_session (LoadClick 0)
       (handle xbox_session (SaveClick 7 false) s))
  = restamp (customization s) 7 /\
  customization
    (handle None (LoadClick 0)
       (mount None 9 (localStorage (handle xbox_session (SaveClick 7 true) s))))
  = restamp (customization s) 7.
Proof.
  cbv zeta. split.
  - refine (proj1 (proj2 (proj2 (proj2
              (save_then_load xbox_session _ 7 false)))) 0%nat _ _ _);
      reflexivity.
  - refine (proj2 (proj2 (proj2 (proj2 (proj2
              (save_then_load xbox_session _ 7 true)))) eq_refl)
              None 9%Z 0%nat _ _ _);
      reflexivity.
Defined.

(** The states of the two scenarios below: Custom Box Art is saved, the
    record is renamed Halo and saved, and the delete of Custom Box Art is
    rejected by the storage. *)
Lemma stale_storage_reachable :
  reachable xbox_session stale_storage /\
  List.map title (savedCustomizations stale_storage) = ["Halo"] /\
  List.map title (persisted stale_storage) = ["Custom Box Art"; "Halo"].
Proof.
  split; [| split; reflexivity].
  unfold stale_storage. repeat apply reachable_event. apply reachable_open.
Qed.

(** C4, as stated, fails.  A storage that holds a title twice loses one
    record on a save of that title.  And in a reachable state with unique
    titles, after a rejected write, the title Halo occurs in the persisted
    collection of two records, yet an accepted save of Halo leaves a
    persisted collection of one. *)
Lemma save_same_title_counterexample :
  (let c := defaults xbox_session 0 in
   let s := mount xbox_session 0 (Some [c; c]) in
   In (title (customization s)) (List.map title (persisted s)) /\
   List.length (persisted s) = 2%nat /\
   List.length (persisted (handle xbox_session (SaveClick 1 true) s)) = 1%nat) /\
  (let s := stale_storage in
   reachable xbox_session s /\
   unique_titles (persisted s) /\
   In (title (customization s)) (List.map title (persisted s)) /\
   List.length (persisted s) = 2%nat /\
   List.length (persisted (handle xbox_session (SaveClick 4 true) s)) = 1%nat).
Proof.
  split; cbv zeta.
  - split; [simpl; tauto | split; reflexivity].
  - split; [exact (proj1 stale_storage_reachable) |].
    split; [| split; [simpl; tauto | split; reflexivity]].
    exact (proj2 (reachable_store_inv _ _ (proj1 stale_storage_reachable))).
Qed.

(** C4, amended: a save, whatever becomes of the storage write, leaves in
    the saved list exactly one record with the saved title, the newly
    stamped one, and keeps the records with other titles; when the list had
    at most one record per title and the title occurred, its size is
    unchanged and it still has at most one record per title.  When the write
    is accepted the persisted collection is that list.  In every reachable
    state the saved list and the persisted collection have at most one
    record per title each. *)
Theorem save_same_title_replaces :
  forall (initialData : option Props.initialData) (s : State) (now : Z)
         (accepted : bool),
    let new := restamp (customization s) now in
    let s' := handle initialData (SaveClick now accepted) s in
    titled (title new) (savedCustomizations s') = [new] /\
    (forall c, title c <> title new ->
       (In c (savedCustomizations s') <-> In c (savedCustomizations s))) /\
    (unique_titles (savedCustomizations s) ->
     In (title new) (List.map title (savedCustomizations s)) ->
     List.length (savedCustomizations s') = List.length (savedCustomizations s) /\
     unique_titles (savedCustomizations s')) /\
    (accepted = true -> persisted s' = savedCustomizations s') /\
    (reachable initialData s ->
     unique_titles (savedCustomizations s) /\ unique_titles (persisted s)).
Proof.
  intros initialData s now accepted new s'. subst s'. cbn [handle].
  rewrite save_list. fold new.
  change (title (customization s)) with (title new).
  split; [| split; [| split; [| split]]].
  - apply (titled_upsert new).
  - intros c T. rewrite in_app_iff, in_without. simpl. split.
    + intros [[H _] | [H | []]]; [exact H | congruence].
    + intro H. left. split; [exact H | exact T].
  - intros U H. split.
    + rewrite length_app. cbn [List.length].
      pose proof (without_length (title new) (savedCustomizations s) U H) as L.
      lia.
    + apply unique_titles_upsert, U.
  - intro A. subst accepted. rewrite save_accepted, save_list. reflexivity.
  - intro R. exact (reachable_store_inv _ _ R).
Qed.

(** C4 at work: the record saved at time 1 is saved again at time 2; and the
    reachable state with the stale storage has unique titles on both sides. *)
Lemma save_same_title_replaces_witness :
  (let s := handle xbox_session (SaveClick 1 true) (mount xbox_session 0 None) in
   List.length (savedCustomizations (handle xbox_session (SaveClick 2 true) s))
   = List.length (savedCustomizations s) /\
   persisted (handle xbox_session (SaveClick 2 true) s)
   = savedCustomizations (handle xbox_session (SaveClick 2 true) s)) /\
  unique_titles (persisted stale_storage).
Proof.
  cbv zeta. split; [split |].
  - refine (proj1 (proj1 (proj2 (proj2
              (save_same_title_replaces xbox_session _ 2 true))) _ _)).
    + repeat constructor. simpl. tauto.
    + simpl. left. reflexivity.
  - exact (proj1 (proj2 (proj2 (proj2
             (save_same_title_replaces xbox_session _ 2 true)))) eq_refl).
  - exact (proj2 (proj2 (proj2 (proj2 (proj2
             (save_same_title_replaces xbox_session stale_storage 0 true))))
             (proj1 stale_storage_reachable))).
Defined.

(** C5, as stated, fails on the persisted collection.  When the storage
    rejects the write of a delete, the record titled T is still persisted
    though the list no longer shows it.  And over the stale storage, where
    nothing is titled Zelda, an accepted delete of Zelda changes the
    persisted collection. *)
Lemma delete_persisted_counterexample :
  (let s := handle xbox_session (SaveClick 1 true) (mount xbox_session 0 None) in
   let s' := handle xbox_session (Delete "Custom Box Art" false) s in
   reachable xbox_session s' /\
   List.map title (persisted s') = ["Custom Box Art"] /\
   savedCustomizations s' = []) /\
  (let s := stale_storage in
   let s' := handle xbox_session (Delete "Zelda" true) s in
   reachable xbox_session s /\
   ~ In "Zelda" (List.map title (persisted s)) /\
   persisted s' <> persisted s).
Proof.
  split; cbv zeta.
  - split; [| split; reflexivity].
    repeat apply reachable_event. apply reachable_open.
  - split; [exact (proj1 stale_storage_reachable) |]. split.
    + simpl. intros [E | [E | []]]; discriminate E.
    + intro E. apply (f_equal (@List.length _)) in E. discriminate E.
Qed.

(** C5, amended: delete(T), whatever becomes of the storage write, removes
    every record titled T from the saved list and keeps every record with
    another title, so after save() of a record titled T followed by
    delete(T) the list contains no record titled T and no entry titled T is
    left to load; when no record titled T exists, delete(T) leaves the list
    unchanged.  When the write is accepted the persisted collection is that
    list. *)
Theorem delete_removes_title :
  forall (initialData : option Props.initialData) (s : State) (t : string)
         (accepted : bool),
    let s' := handle initialData (Delete t accepted) s in
    titled t (savedCustomizations s') = [] /\
    (forall c, In c (savedCustomizations s') -> title c <> t) /\
    (forall c, title c <> t ->
       (In c (savedCustomizations s') <-> In c (savedCustomizations s))) /\
    (forall now accepted',
       title (customization s) = t ->
       let s2 := handle initialData (Delete t accepted)
                   (handle initialData (SaveClick now accepted') s) in
       (forall index data,
          nth_error (savedCustomizations s2) index = Some data ->
          title data <> t) /\
       (forall index,
          customization (handle initialData (LoadClick index) s2)
          = customization s
          \/ title (customization (handle initialData (LoadClick index) s2))
             <> t)) /\
    ((forall c, In c (savedCustomizations s) -> title c <> t) ->
     savedCustomizations s' = savedCustomizations s) /\
    (accepted = true -> persisted s' = savedCustomizations s').
Proof.
  intros initialData s t accepted s'.
  assert (gone : forall u c,
            In c (savedCustomizations (deleteCustomization t accepted u)) ->
            title c <> t).
  { intros u c H. rewrite delete_list in H. apply in_without in H. tauto. }
  split; [| split; [| split; [| split; [| split]]]].
  - subst s'. cbn [handle]. rewrite delete_list. apply titled_without.
  - intros c H. apply (gone s c). exact H.
  - intros c T. subst s'. cbn [handle]. rewrite delete_list, in_without. tauto.
  - intros now accepted' T s2. split.
    + intros index data H.
      apply (gone (saveCustomization now accepted' s) data).
      eapply nth_error_In, H.
    + intro index. cbn [handle]. unfold clickLoad.
      destruct (nth_error _ index) as [data |] eqn:H.
      * right. cbn. apply (gone (saveCustomization now accepted' s) data).
        eapply nth_error_In, H.
      * left. subst s2. cbn [handle].
        rewrite delete_customization, save_customization. reflexivity.
  - intro H. subst s'. cbn [handle]. rewrite delete_list.
    apply without_id. rewrite in_map_iff. intros [c [T Hc]]. exact (H c Hc T).
  - intro A. subst accepted. reflexivity.
Qed.

(** C5 at work.  The list holds Custom Box Art and Halo: deleting Halo, the
    title of the current record just saved, leaves no Halo to load and, the
    write being accepted, none in the storage; deleting Zelda, which is not
    there, leaves the list as it was. *)
Lemma delete_removes_title_witness :
  let s := handle xbox_session (TitleInput "Halo")
             (handle xbox_session (SaveClick 1 true)
                (mount xbox_session 0 None)) in
  let s2 := handle xbox_session (Delete "Halo" true)
              (handle xbox_session (SaveClick 2 true) s) in
  (forall index data,
     nth_error (savedCustomizations s2) index = Some data ->
     title data <> "Halo") /\
  persisted s2 = savedCustomizations s2 /\
  savedCustomizations (handle xbox_session (Delete "Zelda" true) s2)
  = savedCustomizations s2.
Proof.
  cbv zeta.
  set (s := handle xbox_session (TitleInput "Halo")
              (handle xbox_session (SaveClick 1 true)
                 (mount xbox_session 0 None))).
  split; [| split].
  - exact (proj1 (proj1 (proj2 (proj2 (proj2
             (delete_removes_title xbox_session s "Halo" true)))) 2%Z true
             eq_refl)).
  - exact (proj2 (proj2 (proj2 (proj2 (proj2
             (delete_removes_title xbox_session
                (handle xbox_session (SaveClick 2 true) s) "Halo" true)))))
             eq_refl).
  - refine (proj1 (proj2 (proj2 (proj2 (proj2
              (delete_removes_title xbox_session _ "Zelda" true))))) _).
    simpl. intros c [E | []]. subst c. simpl. discriminate.
Defined.

End SavedCollection.

(** * Platform, uploads and the preview *)

Section PanelFacts.

Import Customizer.

(** C6: a session constructed for xbox, whatever its art, title, opening
    time and storage, starts with frame colour #107C10; and in every state,
    selecting playstation sets the platform to playstation and the frame
    colour to #0070D1, whatever colour was there. *)
Theorem platform_drives_frameColor :
  forall (frontUrl : string) (backUrl spineUrl ttl : option string) (now : Z)
         (storage : option (list CustomizationData))
         (initialData : option Props.initialData) (s : State),
    let xboxData :=
      Some {| Props.frontImageUrl := frontUrl;
              Props.backImageUrl := backUrl;
              Props.spineImageUrl := spineUrl;
              Props.platform := xbox;
              Props.title := ttl |} in
    frameColor (customization (mount xboxData now storage)) = "#107C10" /\
    platform (customization (mount xboxData now storage)) = xbox /\
    platform (customization (handle initialData (PlatformSelect playstation) s))
    = playstation /\
    frameColor (customization (handle initialData (PlatformSelect playstation) s))
    = "#0070D1".
Proof. intros. repeat split. Qed.

(** C6 over a custom colour: gold is overwritten by the platform select. *)
Example platform_overwrites_custom_color :
  let s := handle xbox_session (FrameColorInput "#FFD700")
             (mount xbox_session 0 None) in
  frameColor (customization s) = "#FFD700" /\
  frameColor (customization (handle xbox_session (PlatformSelect playstation) s))
  = "#0070D1".
Proof. split; reflexivity. Qed.

(** The key an upload writes is the field of its image type. *)
Lemma upload_key_front : ImageType_str front ++ "Image" = "frontImage".
Proof. reflexivity. Qed.

(** C7: a completed upload to the front slot puts the file's content in
    frontImage and leaves backImage and spineImage as they were; likewise a
    back upload leaves front and spine, and a spine upload leaves front and
    back.  Beyond the image slots, only lastModified changes. *)
Theorem upload_replaces_only_its_slot :
  forall (initialData : option Props.initialData) (s : State)
         (result : string) (now : Z),
    let c := customization s in
    let up type := customization (handle initialData (ImageLoaded result type now) s) in
    (frontImage (up front) = result /\
     backImage (up front) = backImage c /\ spineImage (up front) = spineImage c) /\
    (backImage (up back) = result /\
     frontImage (up back) = frontImage c /\ spineImage (up back) = spineImage c) /\
    (spineImage (up spine) = result /\
     frontImage (up spine) = frontImage c /\ backImage (up spine) = backImage c) /\
    (forall type,
       agree_except [ImageType_field type; LastModified] c (up type)).
Proof.
  intros initialData s result now c up. subst c up.
  repeat match goal with |- _ /\ _ => split end; try reflexivity.
  intros type f Hf. destruct type, f; simpl; try reflexivity;
    exfalso; apply Hf; simpl; tauto.
Qed.

(** C10: a completed upload, to whichever slot, stamps lastModified with the
    time at which the read completed, besides replacing the slot. *)
Theorem upload_stamps_lastModified :
  forall (initialData : option Props.initialData) (s : State)
         (result : string) (type : ImageType) (now : Z),
    let s' := handle initialData (ImageLoaded result type now) s in
    lastModified (customization s') = now /\
    image_slot type (customization s') = result.
Proof. intros. destruct type; split; reflexivity. Qed.

(** *** The preview *)

Section Preview.

Variable useTexture : string -> CustomizableBoxModel.Texture.

(** The effect marks the three textures the scene refers to, and marking
    twice is marking once: a re-run after a slider moved changes nothing. *)
Lemma applyImageFilters_three (a b c : CustomizableBoxModel.Texture) :
  CustomizableBoxModel.applyImageFilters [a; b; c]
  = [CustomizableBoxModel.markTexture a; CustomizableBoxModel.markTexture b;
     CustomizableBoxModel.markTexture c].
Proof. reflexivity. Qed.

Lemma applyImageFilters_idempotent textures :
  CustomizableBoxModel.applyImageFilters
    (CustomizableBoxModel.applyImageFilters textures)
  = CustomizableBoxModel.applyImageFilters textures.
Proof.
  unfold CustomizableBoxModel.applyImageFilters. rewrite List.map_map.
  reflexivity.
Qed.

(** C9: two records that agree on everything but brightness, contrast and
    saturation give the preview the same scene: same rotation, same box
    geometry, the same six materials with the same colours and texture maps,
    and the same scale. *)
Theorem filters_do_not_reach_the_scene :
  forall (c1 c2 : CustomizationData) (hovered : bool),
    agree_except [Brightness; Contrast; Saturation] c1 c2 ->
    CustomizableBoxModel.scene useTexture (model_props c1) hovered
    = CustomizableBoxModel.scene useTexture (model_props c2) hovered.
Proof.
  intros c1 c2 hovered A.
  assert (F : frontImage c1 = frontImage c2).
  { apply (A FrontImage). simpl. intuition discriminate. }
  assert (B : backImage c1 = backImage c2).
  { apply (A BackImage). simpl. intuition discriminate. }
  assert (S : spineImage c1 = spineImage c2).
  { apply (A SpineImage). simpl. intuition discriminate. }
  assert (K : frameColor c1 = frameColor c2).
  { apply (A FrameColor). simpl. intuition discriminate. }
  unfold CustomizableBoxModel.scene, CustomizableBoxModel.render,
    CustomizableBoxModel.render_with.
  cbn. rewrite F, B, S, K. reflexivity.
Qed.

(** Moving a slider leaves the scene as it is. *)
Corollary sliders_leave_scene (initialData : option Props.initialData)
    (s : State) (v : number) (hovered : bool) :
  let scene u := CustomizableBoxModel.scene useTexture
                   (model_props (customization u)) hovered in
  scene (handle initialData (BrightnessSlide v) s) = scene s /\
  scene (handle initialData (ContrastSlide v) s) = scene s /\
  scene (handle initialData (SaturationSlide v) s) = scene s.
Proof. repeat split. Qed.

End Preview.

(** C9 at work: brightness 1.0 against brightness 1.8, contrast 0.5,
    saturation 0, over a loader that marks nothing, pointer over the box. *)
Lemma filters_do_not_reach_the_scene_witness :
  let load url := {| CustomizableBoxModel.image := url;
                     CustomizableBoxModel.needsUpdate := false |} in
  let s := mount xbox_session 0 None in
  let s' := handle xbox_session (SaturationSlide 0)
              (handle xbox_session (ContrastSlide 0.5)
                 (handle xbox_session (BrightnessSlide 1.8) s)) in
  CustomizableBoxModel.scene load (model_props (customization s)) true
  = CustomizableBoxModel.scene load (model_props (customization s')) true.
Proof.
  cbv zeta. apply filters_do_not_reach_the_scene.
  intros f Hf. destruct f; simpl; try reflexivity;
    exfalso; apply Hf; simpl; tauto.
Defined.

End PanelFacts.

(** * The viewer's box model *)

Section ViewerFacts.

Import Viewer.

Variable Math_sin : number -> number.

Lemma toggleAutoRotate_flips m :
  autoRotate (toggleAutoRotate m) = negb (autoRotate m)
  /\ groupRef_current (toggleAutoRotate m) = groupRef_current m
  /\ hovered (toggleAutoRotate m) = hovered m.
Proof. repeat split. Qed.

Lemma toggleAutoRotate_twice m : toggleAutoRotate (toggleAutoRotate m) = m.
Proof.
  destruct m as [g h a]. unfold toggleAutoRotate, setAutoRotate. simpl.
  rewrite negb_involutive. reflexivity.
Qed.

Lemma rotate_y elapsedTime g :
  y (rotation (rotate Math_sin elapsedTime g)) = (y (rotation g) + 0.01)%Q.
Proof. reflexivity. Qed.

Lemma step_increases (q : Q) : (q < q + 0.01)%Q.
Proof. lra. Qed.

(** A frame over a mounted group never fails, keeps the flags, and leaves a
    mounted group. *)
Lemma useFrame_mounted elapsedTime m g :
  groupRef_current m = Some g ->
  exists g',
    useFrame Math_sin elapsedTime m
    = Some {| groupRef_current := Some g';
              hovered := hovered m; autoRotate := autoRotate m |}
    /\ rotation g' = (if autoRotate m
                      then rotation (rotate Math_sin elapsedTime g)
                      else rotation g).
Proof.
  intro G. unfold useFrame. rewrite G.
  destruct (autoRotate m), (hovered m); simpl; eexists; split; reflexivity.
Qed.

(** C8: on a mounted model a click flips the auto-rotate flag, once, and
    touches nothing else; a frame keeps the flag, and moves the Y rotation up
    by 0.01, strictly, when the flag is true, while it leaves the rotation as
    it was when the flag is false. *)
Theorem click_flips_and_frames_rotate :
  forall (m : Model) (g : Group) (elapsedTime : number),
    groupRef_current m = Some g ->
    (exists m1,
       step Math_sin Click m = Some m1 /\
       autoRotate m1 = negb (autoRotate m) /\
       groupRef_current m1 = Some g /\
       hovered m1 = hovered m) /\
    (exists m' g',
       step Math_sin (Frame elapsedTime) m = Some m' /\
       groupRef_current m' = Some g' /\
       autoRotate m' = autoRotate m /\
       (autoRotate m = true ->
        y (rotation g') = (y (rotation g) + 0.01)%Q /\
        (y (rotation g) < y (rotation g'))%Q) /\
       (autoRotate m = false -> rotation g' = rotation g)).
Proof.
  intros m g elapsedTime G. split.
  - exists (toggleAutoRotate m). cbn [step]. repeat split. exact G.
  - destruct (useFrame_mounted elapsedTime m g G) as [g' [F R]].
    eexists. exists g'. cbn [step]. split; [exact F |].
    cbn [groupRef_current autoRotate].
    split; [reflexivity | split; [reflexivity | split]]; intro A; rewrite R, A.
    + split; [apply rotate_y | rewrite rotate_y; apply step_increases].
    + reflexivity.
Qed.

(** Over a run of events from a mounted model: the run never fails, and the
    flag at the end is the flag at the start flipped once per click. *)
Lemma run_mounted es : forall m g,
  groupRef_current m = Some g ->
  exists m' g',
    run Math_sin es m = Some m' /\ groupRef_current m' = Some g' /\
    autoRotate m'
    = xorb (autoRotate m) (Nat.odd (List.length (filter is_click es))).
Proof.
  induction es as [| e es IH]; intros m g G.
  - exists m, g. simpl. rewrite xorb_false_r. auto.
  - destruct e as [t | | |]; cbn [run step filter is_click].
    + destruct (useFrame_mounted t m g G) as [g1 [F _]]. rewrite F.
      destruct (IH {| groupRef_current := Some g1; hovered := hovered m;
                      autoRotate := autoRotate m |} g1 eq_refl)
        as [m' [g' [R [G' A]]]].
      exists m', g'. auto.
    + destruct (IH (toggleAutoRotate m) g G) as [m' [g' [R [G' A]]]].
      exists m', g'. repeat split; [exact R | exact G' |].
      rewrite A. cbn [List.length]. rewrite Nat.odd_succ, <- Nat.negb_odd.
      cbn [toggleAutoRotate setAutoRotate autoRotate].
      destruct (autoRotate m), (Nat.odd _); reflexivity.
    + destruct (IH (setHovered true m) g G) as [m' [g' [R [G' A]]]].
      exists m', g'. auto.
    + destruct (IH (setHovered false m) g G) as [m' [g' [R [G' A]]]].
      exists m', g'. auto.
Qed.

End ViewerFacts.

(** C8 at work: the model as mounted, its first click and its first frame. *)
Lemma click_flips_and_frames_rotate_witness :
  let sin0 := fun _ : number => 0%Q in
  (exists m1,
     Viewer.step sin0 Viewer.Click Viewer.mounted = Some m1 /\
     Viewer.autoRotate m1 = false) /\
  (exists g',
     option_map Viewer.groupRef_current
       (Viewer.step sin0 (Viewer.Frame 0) Viewer.mounted) = Some (Some g') /\
     (0.3 < Viewer.y (Viewer.rotation g'))%Q).
Proof.
  cbv zeta.
  destruct (click_flips_and_frames_rotate (fun _ => 0%Q) Viewer.mounted _ 0%Q
              eq_refl) as [[m1 [C [A _]]] [m' [g' [F [G [_ [T _]]]]]]].
  split.
  - exists m1. split; [exact C | exact A].
  - exists g'. split.
    + rewrite F. simpl. rewrite G. reflexivity.
    + exact (proj2 (T eq_refl)).
Defined.

(** * Further properties of the customizer store *)

Section StoreAlgebra.

Import Customizer.
Local Open Scope list_scope.

Lemma without_without t u l :
  filter (title_differs t) (filter (title_differs u) l)
  = filter (title_differs u) (filter (title_differs t) l).
Proof.
  induction l as [| c l IH]; simpl; [reflexivity |].
  destruct (title_differs u c) eqn:U, (title_differs t c) eqn:T; simpl;
    rewrite ?U, ?T, IH; reflexivity.
Qed.

Lemma without_twice t l :
  filter (title_differs t) (filter (title_differs t) l)
  = filter (title_differs t) l.
Proof.
  induction l as [| c l IH]; simpl; [reflexivity |].
  destruct (title_differs t c) eqn:T; simpl; rewrite ?T, IH; reflexivity.
Qed.

Lemma without_self c :
  filter (title_differs (title c)) [c] = [].
Proof. simpl. unfold title_differs. rewrite String.eqb_refl. reflexivity. Qed.

Lemma without_restamp c now :
  filter (title_differs (title c)) [restamp c now] = [].
Proof. exact (without_self (restamp c now)). Qed.

Lemma split_by_title t l :
  (List.length (filter (title_differs t) l) + List.length (titled t l)
   = List.length l)%nat.
Proof.
  unfold titled. induction l as [| c l IH]; simpl; [reflexivity |].
  unfold title_differs at 1. destruct (title c =? t); simpl; lia.
Qed.

(** The initial record: the front image is the one given; back and spine are
    the ones given unless absent or empty, when they are the front image; the
    title is the one given unless absent or empty, when it is Custom Box Art.
    With no initial data at all the three images are empty, the platform is
    standard and the frame colour its grey. *)
Theorem defaults_fall_back :
  forall (d : Props.initialData) (now : Z),
    let c := defaults (Some d) now in
    let or_else (given : option string) (fallback : string) :=
      match given with
      | Some v => if v =? EmptyString then fallback else v
      | None => fallback
      end in
    frontImage c = Props.frontImageUrl d /\
    backImage c = or_else (Props.backImageUrl d) (Props.frontImageUrl d) /\
    spineImage c = or_else (Props.spineImageUrl d) (Props.frontImageUrl d) /\
    title c = or_else (Props.title d) "Custom Box Art" /\
    lastModified c = now /\
    defaults None now
    = {| frontImage := EmptyString; backImage := EmptyString;
         spineImage := EmptyString; frameColor := "#707070";
         platform := standard; title := "Custom Box Art";
         brightness := 1.0; contrast := 1.0; saturation := 1.0;
         lastModified := now |}.
Proof.
  intros [f b sp pl ti] now. cbv zeta.
  assert (F : JS.or_str (Some f) EmptyString = f).
  { unfold JS.or_str, JS.or, JS.truthy.
    destruct (String.eqb_spec f EmptyString) as [E | E]; simpl; congruence. }
  unfold defaults. cbn [frontImage backImage spineImage title lastModified
    option_map JS.opt_chain Props.frontImageUrl Props.backImageUrl
    Props.spineImageUrl Props.title].
  repeat split.
  - exact F.
  - destruct b as [v |]; [| exact F]. unfold JS.or at 1, JS.truthy.
    destruct (v =? EmptyString) eqn:E; simpl; [exact F |].
    unfold JS.or_str, JS.or, JS.truthy. rewrite E. reflexivity.
  - destruct sp as [v |]; [| exact F]. unfold JS.or at 1, JS.truthy.
    destruct (v =? EmptyString) eqn:E; simpl; [exact F |].
    unfold JS.or_str, JS.or, JS.truthy. rewrite E. reflexivity.
  - destruct ti as [v |]; [| reflexivity].
    unfold JS.or_str, JS.or, JS.truthy.
    destruct (v =? EmptyString); reflexivity.
Qed.

(** Reset, from whatever state, gives the record that mounting with the
    current [initialData] at that time gives; it leaves the saved list and
    the storage alone; and a later reset gives what it would have given
    directly, which differs from the first reset's record in lastModified
    only. *)
Theorem reset_returns_to_mount :
  forall (initialData : option Props.initialData) (now now2 : Z) (s : State)
         (storage : option (list CustomizationData)),
    let s' := handle initialData (ResetClick now) s in
    let s2 := handle initialData (ResetClick now2) s' in
    customization s' = customization (mount initialData now storage) /\
    savedCustomizations s' = savedCustomizations s /\
    localStorage s' = localStorage s /\
    customization s2 = customization (handle initialData (ResetClick now2) s) /\
    agree_except [LastModified] (customization s') (customization s2) /\
    lastModified (customization s2) = now2.
Proof.
  intros. repeat split.
  intros f Hf. destruct f; simpl; try reflexivity.
  exfalso. apply Hf. simpl. tauto.
Qed.

(** A save, whatever becomes of the storage write, changes the size of the
    saved list by one minus the number of records that carried the title;
    the saved record comes last; and when the title is new the list is the
    old one with the record appended. *)
Theorem save_size_and_position :
  forall (s : State) (now : Z) (accepted : bool),
    let new := restamp (customization s) now in
    let s' := saveCustomization now accepted s in
    (List.length (savedCustomizations s')
     + List.length (titled (title new) (savedCustomizations s))
     = S (List.length (savedCustomizations s)))%nat /\
    List.last (savedCustomizations s') new = new /\
    nth_error (savedCustomizations s')
      (List.length (savedCustomizations s') - 1)%nat = Some new /\
    CustomizerView.placeholder_shown s' = false /\
    (~ In (title new) (List.map title (savedCustomizations s)) ->
     savedCustomizations s' = savedCustomizations s ++ [new]).
Proof.
  intros s now accepted new s'. subst s'.
  unfold CustomizerView.placeholder_shown.
  rewrite save_list. fold new.
  change (title (customization s)) with (title new).
  set (rest := filter (title_differs (title new)) (savedCustomizations s)).
  split; [| split; [| split; [| split]]].
  - rewrite length_app. cbn [List.length].
    pose proof (split_by_title (title new) (savedCustomizations s)) as H.
    fold rest in H. lia.
  - apply last_last.
  - rewrite length_app. simpl.
    replace (List.length rest + 1 - 1)%nat with (List.length rest) by lia.
    rewrite nth_error_app2 by lia. rewrite Nat.sub_diag. reflexivity.
  - rewrite length_app. simpl. apply Nat.eqb_neq. lia.
  - intro H. subst rest. rewrite (without_id _ _ H). reflexivity.
Qed.

(** The appending case at work: a first save into an empty list, the write
    rejected. *)
Lemma save_size_and_position_witness :
  let s := mount xbox_session 0 None in
  savedCustomizations (saveCustomization 5 false s)
  = savedCustomizations s ++ [restamp (customization s) 5].
Proof.
  cbv zeta.
  refine (proj2 (proj2 (proj2 (proj2 (save_size_and_position _ 5 false)))) _).
  simpl. tauto.
Defined.

(** Saving twice in a row is saving once at the later time: the saved list
    ends up as after the second save alone whatever becomes of the writes,
    and so does the storage entry when the second write is accepted; the
    current record is not changed by saving. *)
Theorem save_twice_is_save_once :
  forall (s : State) (now1 now2 : Z) (accepted1 accepted2 : bool),
    let twice := saveCustomization now2 accepted2
                   (saveCustomization now1 accepted1 s) in
    let once := saveCustomization now2 accepted2 s in
    savedCustomizations twice = savedCustomizations once /\
    (accepted2 = true -> localStorage twice = localStorage once) /\
    customization twice = customization s.
Proof.
  intros s now1 now2 accepted1 accepted2 twice once.
  assert (K : savedCustomizations twice = savedCustomizations once).
  { subst twice once. rewrite !save_list, save_customization.
    rewrite filter_app, without_twice, without_restamp, app_nil_r.
    reflexivity. }
  split; [exact K | split].
  - intro A. subst accepted2.
    change (Some (savedCustomizations twice) = Some (savedCustomizations once)).
    rewrite K. reflexivity.
  - subst twice. rewrite !save_customization. reflexivity.
Qed.

(** At work: a rejected save followed by an accepted one stores what the
    accepted one alone stores. *)
Lemma save_twice_is_save_once_witness :
  let s := mount xbox_session 0 None in
  localStorage (saveCustomization 2 true (saveCustomization 1 false s))
  = localStorage (saveCustomization 2 true s).
Proof.
  cbv zeta.
  exact (proj1 (proj2 (save_twice_is_save_once
                         (mount xbox_session 0 None) 1 2 false true)) eq_refl).
Defined.

(** Deleting a title twice is deleting it once, and deletions of two titles
    can be done in either order: the saved list is the same whatever becomes
    of the writes, and so is the persisted collection when the last write of
    either order is accepted. *)
Theorem delete_idempotent_and_commutes :
  forall (s : State) (t u : string) (a1 a2 a3 a4 : bool),
    savedCustomizations (deleteCustomization t a1 (deleteCustomization t a2 s))
    = savedCustomizations (deleteCustomization t a3 s) /\
    savedCustomizations (deleteCustomization t a1 (deleteCustomization u a2 s))
    = savedCustomizations (deleteCustomization u a3 (deleteCustomization t a4 s)) /\
    (a1 = true -> a3 = true ->
     persisted (deleteCustomization t a1 (deleteCustomization u a2 s))
     = persisted (deleteCustomization u a3 (deleteCustomization t a4 s))).
Proof.
  intros s t u a1 a2 a3 a4.
  assert (K : savedCustomizations
                (deleteCustomization t a1 (deleteCustomization u a2 s))
              = savedCustomizations
                  (deleteCustomization u a3 (deleteCustomization t a4 s))).
  { rewrite !delete_list. apply without_without. }
  split; [| split].
  - rewrite !delete_list. apply without_twice.
  - exact K.
  - intros A1 A3. subst a1 a3. rewrite !delete_accepted. exact K.
Qed.

(** At work: Custom Box Art and Halo are deleted in both orders, each first
    write rejected, each last write accepted. *)
Lemma delete_idempotent_and_commutes_witness :
  persisted
    (deleteCustomization "Halo" true
       (deleteCustomization "Custom Box Art" false stale_storage))
  = persisted
      (deleteCustomization "Custom Box Art" true
         (deleteCustomization "Halo" false stale_storage)).
Proof.
  exact (proj2 (proj2 (delete_idempotent_and_commutes stale_storage
                         "Halo" "Custom Box Art" true false true false))
           eq_refl eq_refl).
Defined.

(** Deleting a title, whatever becomes of the storage write, takes out of
    the saved list as many records as carried it, and keeps the others. *)
Theorem delete_size :
  forall (s : State) (t : string) (accepted : bool),
    (List.length (savedCustomizations (deleteCustomization t accepted s))
     + List.length (titled t (savedCustomizations s))
     = List.length (savedCustomizations s))%nat /\
    (forall c, title c <> t ->
       (In c (savedCustomizations (deleteCustomization t accepted s))
        <-> In c (savedCustomizations s))).
Proof.
  intros s t accepted. rewrite delete_list. split.
  - apply split_by_title.
  - intros c T. rewrite in_without. tauto.
Qed.

(** Delete undoes a save of a new title: when no saved record carries the
    current title, saving and then deleting that title gives the saved list
    back as it was, whatever becomes of the writes; when the write of the
    delete is accepted the persisted collection is that list. *)
Theorem delete_undoes_fresh_save :
  forall (s : State) (now : Z) (accepted1 accepted2 : bool),
    ~ In (title (customization s)) (List.map title (savedCustomizations s)) ->
    let s' := deleteCustomization (title (customization s)) accepted2
                (saveCustomization now accepted1 s) in
    savedCustomizations s' = savedCustomizations s /\
    (accepted2 = true -> persisted s' = savedCustomizations s).
Proof.
  intros s now accepted1 accepted2 H s'.
  assert (K : savedCustomizations s' = savedCustomizations s).
  { subst s'. rewrite delete_list, save_list, filter_app, without_twice.
    rewrite without_restamp, app_nil_r, (without_id _ _ H). reflexivity. }
  split; [exact K |].
  intro A. subst accepted2 s'. rewrite delete_accepted. exact K.
Qed.

(** The round trip at work: one record titled Custom Box Art is stored, the
    current record is renamed Halo, saved with the write rejected and
    deleted again with the write accepted. *)
Lemma delete_undoes_fresh_save_witness :
  let s := onTitleChange "Halo"
             (saveCustomization 1 true (mount xbox_session 0 None)) in
  let s' := deleteCustomization (title (customization s)) true
              (saveCustomization 2 false s) in
  savedCustomizations s' = savedCustomizations s /\
  persisted s' = savedCustomizations s.
Proof.
  cbv zeta.
  set (s := onTitleChange "Halo"
              (saveCustomization 1 true (mount xbox_session 0 None))).
  assert (H : ~ In (title (customization s))
                (List.map title (savedCustomizations s))).
  { simpl. intros [E | []]. discriminate E. }
  split.
  - exact (proj1 (delete_undoes_fresh_save s 2 false true H)).
  - exact (proj2 (delete_undoes_fresh_save s 2 false true H) eq_refl).
Defined.

(** Only the save and delete handlers write: every other event leaves the
    saved list and the storage entry exactly as they were. *)
Theorem only_save_and_delete_write :
  forall (initialData : option Props.initialData) (e : Event) (s : State),
    CustomizerView.writes_storage e = false ->
    savedCustomizations (handle initialData e s) = savedCustomizations s /\
    localStorage (handle initialData e s) = localStorage s.
Proof.
  intros initialData e s W. destruct e; try discriminate W; cbn [handle];
    try (split; reflexivity).
  unfold clickLoad. destruct (nth_error _ _); split; reflexivity.
Qed.

(** At work: loading the first saved entry writes nothing. *)
Lemma only_save_and_delete_write_witness :
  let s := saveCustomization 1 true (mount xbox_session 0 None) in
  savedCustomizations (handle xbox_session (LoadClick 0) s) = savedCustomizations s
  /\ localStorage (handle xbox_session (LoadClick 0) s) = localStorage s.
Proof.
  cbv zeta. apply only_save_and_delete_write. reflexivity.
Defined.

(** Renaming a loaded record and saving it stores a copy: whatever becomes
    of the storage write, the entry loaded stays in the list under its old
    title, and the renamed record is added under the new one. *)
Theorem rename_then_save_keeps_original :
  forall (s : State) (index : nat) (data : CustomizationData)
         (newTitle : string) (now : Z) (accepted : bool),
    nth_error (savedCustomizations s) index = Some data ->
    newTitle <> title data ->
    let s' := saveCustomization now accepted
                (onTitleChange newTitle (clickLoad index s)) in
    In data (savedCustomizations s') /\
    In (restamp (customization (onTitleChange newTitle (clickLoad index s))) now)
       (savedCustomizations s') /\
    title (customization s') = newTitle /\
    agree_except [Title] data (customization s').
Proof.
  intros s index data newTitle now accepted H N s'. subst s'.
  assert (L : clickLoad index s = loadCustomization data s).
  { unfold clickLoad. rewrite H. reflexivity. }
  rewrite L, save_customization, save_list.
  split; [| split; [| split]].
  - apply in_or_app. left. apply in_without. split.
    + eapply nth_error_In, H.
    + cbn. congruence.
  - apply in_or_app. right. left. reflexivity.
  - reflexivity.
  - intros f Hf. destruct f; simpl; try reflexivity.
    exfalso. apply Hf. simpl. tauto.
Qed.

(** At work: the stored Custom Box Art is loaded, renamed Halo and saved. *)
Lemma rename_then_save_keeps_original_witness :
  let s := saveCustomization 1 true (mount xbox_session 0 None) in
  In (restamp (defaults xbox_session 0) 1)
     (savedCustomizations
        (saveCustomization 2 true (onTitleChange "Halo" (clickLoad 0 s)))).
Proof.
  cbv zeta.
  refine (proj1 (rename_then_save_keeps_original _ 0 _ "Halo" 2 true _ _)).
  - reflexivity.
  - simpl. discriminate.
Defined.

(** Uploads compose slot by slot: a second upload to the same slot replaces
    the first, and uploads to two different slots give the same record in
    either order, stamped with the time of the later one. *)
Theorem uploads_compose :
  forall (s : State) (a b : string) (t1 t2 : ImageType) (now1 now2 : Z),
    customization
      (handleImageUpload_onload b t1 now2 (handleImageUpload_onload a t1 now1 s))
    = customization (handleImageUpload_onload b t1 now2 s) /\
    (t1 <> t2 ->
     customization
       (handleImageUpload_onload b t2 now2 (handleImageUpload_onload a t1 now1 s))
     = customization
         (handleImageUpload_onload a t1 now2 (handleImageUpload_onload b t2 now1 s))).
Proof.
  intros s a b t1 t2 now1 now2. split.
  - destruct t1; reflexivity.
  - intro N. destruct t1, t2; try reflexivity; contradiction.
Qed.

(** At work: a front and a back upload, in both orders. *)
Lemma uploads_compose_witness :
  let s := mount xbox_session 0 None in
  customization
    (handleImageUpload_onload "b" back 2 (handleImageUpload_onload "a" front 1 s))
  = customization
      (handleImageUpload_onload "a" front 2 (handleImageUpload_onload "b" back 1 s)).
Proof.
  cbv zeta. apply (proj2 (uploads_compose _ "a" "b" front back 1 2)).
  discriminate.
Defined.

(** The presets have pairwise different colours, so a click on a preset of
    the palette highlights that button and no other. *)
Theorem preset_click_highlights_one :
  forall (initialData : option Props.initialData) (s : State) (p q : ColorPreset),
    In p COLOR_PRESETS -> In q COLOR_PRESETS ->
    (CustomizerView.preset_highlighted
       (customization (handle initialData (PresetClick p) s)) q = true
     <-> q = p).
Proof.
  intros initialData s p q Hp Hq. cbn [handle].
  unfold CustomizerView.preset_highlighted, onPresetClick, onFrameColorChange.
  cbn [setCustomization customization frameColor].
  rewrite String.eqb_eq. split; [| intro; subst; reflexivity].
  simpl in Hp, Hq.
  repeat (destruct Hp as [Hp | Hp]; [subst p |]); try contradiction;
    repeat (destruct Hq as [Hq | Hq]; [subst q |]); try contradiction;
    simpl; intro E; try reflexivity; discriminate E.
Qed.

(** At work: after a click on Gold, Gold is highlighted. *)
Lemma preset_click_highlights_one_witness :
  let gold := {| preset_name := "Gold"; color := "#FFD700" |} in
  CustomizerView.preset_highlighted
    (customization
       (handle xbox_session (PresetClick gold) (mount xbox_session 0 None)))
    gold = true.
Proof.
  cbv zeta.
  refine (proj2 (preset_click_highlights_one xbox_session _ _ _ _ _) eq_refl);
    simpl; tauto.
Defined.

End StoreAlgebra.

(** * Further properties of the viewer's box model *)

Section ViewerRuns.

Import Viewer.

Variable Math_sin : number -> number.

(** One frame over a mounted group, spelled out by flag. *)
Lemma useFrame_cases elapsedTime m g :
  groupRef_current m = Some g ->
  useFrame Math_sin elapsedTime m
  = Some {| groupRef_current :=
              Some (if autoRotate m then rotate Math_sin elapsedTime g
                    else setScalar (if hovered m then 1.05%Q else 1%Q) g);
            hovered := hovered m; autoRotate := autoRotate m |}.
Proof.
  intro G. unfold useFrame. rewrite G.
  destruct (autoRotate m), (hovered m); reflexivity.
Qed.

(** The hover effect is suppressed while the box turns: a frame with the flag
    on leaves the scale as it finds it, enlarged or not; with the flag off it
    sets the scale to 1.05 under the pointer and to 1 otherwise. *)
Theorem frame_sets_hover_scale :
  forall (m : Model) (g : Group) (elapsedTime : number),
    groupRef_current m = Some g ->
    exists m' g',
      useFrame Math_sin elapsedTime m = Some m' /\
      groupRef_current m' = Some g' /\
      hovered m' = hovered m /\
      scale g' = (if autoRotate m then scale g
                  else if hovered m then 1.05%Q else 1%Q).
Proof.
  intros m g elapsedTime G. rewrite (useFrame_cases elapsedTime m g G).
  eexists. eexists. split; [reflexivity |]. cbn [groupRef_current hovered].
  split; [reflexivity | split; [reflexivity |]].
  destruct (autoRotate m), (hovered m); reflexivity.
Qed.

(** Whatever the user does, the scale of the box is 1 or 1.05. *)
Theorem scale_is_one_or_hover :
  forall (es : list Event) (m : Model) (g : Group),
    groupRef_current m = Some g ->
    scale g = 1%Q \/ scale g = 1.05%Q ->
    exists m' g',
      run Math_sin es m = Some m' /\
      groupRef_current m' = Some g' /\
      (scale g' = 1%Q \/ scale g' = 1.05%Q).
Proof.
  induction es as [| e es IH]; intros m g G S.
  - exists m, g. simpl. auto.
  - destruct e as [t | | |]; cbn [run step].
    + rewrite (useFrame_cases t m g G).
      set (g1 := if autoRotate m then rotate Math_sin t g
                 else setScalar (if hovered m then 1.05%Q else 1%Q) g).
      apply (IH {| groupRef_current := Some g1; hovered := hovered m;
                   autoRotate := autoRotate m |} g1 eq_refl).
      subst g1. destruct (autoRotate m); [exact S |].
      destruct (hovered m); simpl; auto.
    + apply (IH (toggleAutoRotate m) g G S).
    + apply (IH (setHovered true m) g G S).
    + apply (IH (setHovered false m) g G S).
Qed.

(** Over any run of events the Y rotation never decreases: it ends where it
    started when no frame was met while the flag was on, and strictly above
    when one was. *)
Theorem rotation_y_never_decreases :
  forall (es : list Event) (m : Model) (g : Group),
    groupRef_current m = Some g ->
    exists m' g',
      run Math_sin es m = Some m' /\
      groupRef_current m' = Some g' /\
      (y (rotation g) <= y (rotation g'))%Q /\
      (BoxArtModel.turning_frames es (autoRotate m) = 0%nat ->
       y (rotation g') = y (rotation g)) /\
      ((0 < BoxArtModel.turning_frames es (autoRotate m))%nat ->
       (y (rotation g) < y (rotation g'))%Q).
Proof.
  induction es as [| e es IH]; intros m g G.
  - exists m, g. cbn [run BoxArtModel.turning_frames].
    split; [reflexivity | split; [exact G | split; [lra | split]]].
    + reflexivity.
    + intro H. inversion H.
  - destruct e as [t | | |]; cbn [run step BoxArtModel.turning_frames].
    + rewrite (useFrame_cases t m g G).
      set (g1 := if autoRotate m then rotate Math_sin t g
                 else setScalar (if hovered m then 1.05%Q else 1%Q) g).
      destruct (IH {| groupRef_current := Some g1; hovered := hovered m;
                      autoRotate := autoRotate m |} g1 eq_refl)
        as [m' [g' [R [G' [L [Z P]]]]]].
      exists m', g'. split; [exact R | split; [exact G' |]].
      cbn [autoRotate] in Z, P. subst g1. destruct (autoRotate m).
      * cbn [rotate rotation y] in L, Z, P.
        pose proof (step_increases (y (rotation g))) as I.
        split; [lra | split].
        -- intro H. discriminate H.
        -- intros _. lra.
      * cbn [setScalar rotation] in L, Z, P.
        split; [exact L | split; [exact Z | exact P]].
    + destruct (IH (toggleAutoRotate m) g G) as [m' [g' [R [G' K]]]].
      exists m', g'. auto.
    + destruct (IH (setHovered true m) g G) as [m' [g' [R [G' K]]]].
      exists m', g'. auto.
    + destruct (IH (setHovered false m) g G) as [m' [g' [R [G' K]]]].
      exists m', g'. auto.
Qed.

(** The tilt stays small: as long as the sine is within [-1, 1], a frame with
    the flag on leaves the X rotation within 0.5 and the Z rotation within
    0.2 of zero. *)
Theorem tilt_is_bounded :
  forall (m : Model) (g : Group) (elapsedTime : number),
    (forall t, -1 <= Math_sin t <= 1)%Q ->
    groupRef_current m = Some g ->
    autoRotate m = true ->
    exists m' g',
      useFrame Math_sin elapsedTime m = Some m' /\
      groupRef_current m' = Some g' /\
      (-0.5 <= x (rotation g') <= 0.5)%Q /\
      (-0.2 <= z (rotation g') <= 0.2)%Q.
Proof.
  intros m g elapsedTime B G A. rewrite (useFrame_cases elapsedTime m g G), A.
  eexists. eexists. split; [reflexivity | split; [reflexivity |]].
  cbn [rotate rotation x z].
  pose proof (B (elapsedTime * 0.4)%Q) as Bx.
  pose proof (B (elapsedTime * 0.3)%Q) as Bz.
  split; lra.
Qed.

(** Before the group is attached, a frame does nothing while the flag is on
    and fails, reading the scale of a null ref, once it is off. *)
Theorem frame_without_group :
  forall (m : Model) (elapsedTime : number),
    groupRef_current m = None ->
    useFrame Math_sin elapsedTime m = (if autoRotate m then Some m else None).
Proof.
  intros [g h a] elapsedTime G. simpl in G. subst g. unfold useFrame. simpl.
  destruct a, h; reflexivity.
Qed.

End ViewerRuns.

(** The frame's scale at work: pointer over a paused box. *)
Lemma frame_sets_hover_scale_witness :
  let sin0 := fun _ : number => 0%Q in
  let m := Viewer.setHovered true (Viewer.toggleAutoRotate Viewer.mounted) in
  exists m' g',
    Viewer.useFrame sin0 0 m = Some m' /\
    Viewer.groupRef_current m' = Some g' /\
    Viewer.scale g' = 1.05%Q.
Proof.
  cbv zeta.
  destruct (frame_sets_hover_scale (fun _ => 0%Q)
              (Viewer.setHovered true (Viewer.toggleAutoRotate Viewer.mounted))
              BoxArtModel.mounted_group 0%Q eq_refl) as [m' [g' [F [G [_ S]]]]].
  exists m', g'. split; [exact F | split; [exact G | exact S]].
Defined.

(** The scale range at work: pause, hover, a frame, resume, leave, a frame:
    the box is still enlarged. *)
Lemma scale_is_one_or_hover_witness :
  let sin0 := fun _ : number => 0%Q in
  let es := [Viewer.Click; Viewer.PointerOver; Viewer.Frame 0; Viewer.Click;
             Viewer.PointerOut; Viewer.Frame 1] in
  exists m' g',
    Viewer.run sin0 es Viewer.mounted = Some m' /\
    Viewer.groupRef_current m' = Some g' /\
    (Viewer.scale g' = 1%Q \/ Viewer.scale g' = 1.05%Q).
Proof.
  cbv zeta.
  apply (scale_is_one_or_hover (fun _ => 0%Q) _ Viewer.mounted
           BoxArtModel.mounted_group eq_refl).
  left. reflexivity.
Defined.

(** At work: a click pauses the box and two frames leave the Y rotation at
    0.3; a frame before the click moves it above. *)
Lemma rotation_y_never_decreases_witness :
  let sin0 := fun _ : number => 0%Q in
  (exists m' g',
     Viewer.run sin0 [Viewer.Click; Viewer.Frame 0; Viewer.Frame 1]
       Viewer.mounted = Some m' /\
     Viewer.groupRef_current m' = Some g' /\
     Viewer.y (Viewer.rotation g') = 0.3%Q) /\
  (exists m' g',
     Viewer.run sin0 [Viewer.Frame 0; Viewer.Click; Viewer.Frame 1]
       Viewer.mounted = Some m' /\
     Viewer.groupRef_current m' = Some g' /\
     (0.3 < Viewer.y (Viewer.rotation g'))%Q).
Proof.
  cbv zeta. split.
  - destruct (rotation_y_never_decreases (fun _ => 0%Q)
                [Viewer.Click; Viewer.Frame 0; Viewer.Frame 1]
                Viewer.mounted BoxArtModel.mounted_group eq_refl)
      as [m' [g' [R [G [_ [Z _]]]]]].
    exists m', g'. split; [exact R | split; [exact G | exact (Z eq_refl)]].
  - destruct (rotation_y_never_decreases (fun _ => 0%Q)
                [Viewer.Frame 0; Viewer.Click; Viewer.Frame 1]
                Viewer.mounted BoxArtModel.mounted_group eq_refl)
      as [m' [g' [R [G [_ [_ P]]]]]].
    exists m', g'. split; [exact R | split; [exact G |]].
    apply P. simpl. apply Nat.lt_0_1.
Defined.

(** The bound at work, for the constant sine 1. *)
Lemma tilt_is_bounded_witness :
  let sin1 := fun _ : number => 1%Q in
  exists m' g',
    Viewer.useFrame sin1 3 Viewer.mounted = Some m' /\
    Viewer.groupRef_current m' = Some g' /\
    (-0.5 <= Viewer.x (Viewer.rotation g') <= 0.5)%Q /\
    (-0.2 <= Viewer.z (Viewer.rotation g') <= 0.2)%Q.
Proof.
  cbv zeta.
  apply (tilt_is_bounded (fun _ => 1%Q) Viewer.mounted
           BoxArtModel.mounted_group 3%Q).
  - intros _. split; lra.
  - reflexivity.
  - reflexivity.
Defined.

(** A null ref at work: the flag is off, the frame fails. *)
Lemma frame_without_group_witness :
  let sin0 := fun _ : number => 0%Q in
  let m := {| Viewer.groupRef_current := None; Viewer.hovered := false;
              Viewer.autoRotate := false |} in
  Viewer.useFrame sin0 0 m = None.
Proof.
  cbv zeta.
  exact (frame_without_group (fun _ => 0%Q)
           {| Viewer.groupRef_current := None; Viewer.hovered := false;
              Viewer.autoRotate := false |} 0%Q eq_refl).
Defined.

(** No run from the mounted model fails, and three clicks leave the flag
    flipped. *)
Lemma run_mounted_witness :
  let sin0 := fun _ : number => 0%Q in
  let es := [Viewer.Click; Viewer.Frame 0; Viewer.Click; Viewer.Click] in
  exists m' g',
    Viewer.run sin0 es Viewer.mounted = Some m' /\
    Viewer.groupRef_current m' = Some g' /\
    Viewer.autoRotate m' = false.
Proof.
  cbv zeta.
  destruct (run_mounted (fun _ => 0%Q)
              [Viewer.Click; Viewer.Frame 0; Viewer.Click; Viewer.Click]
              Viewer.mounted BoxArtModel.mounted_group eq_refl)
    as [m' [g' [R [G A]]]].
  exists m', g'. split; [exact R | split; [exact G | exact A]].
Defined.

(** * The viewer's box and the demo page *)

Section BoxAndDemo.

Lemma or_num_positive (o : option number) (d : number) :
  (0 < d)%Q -> BoxArtModel.absent_or_nonneg o -> (0 < BoxArtModel.or_num o d)%Q.
Proof.
  intros D N. destruct o as [q |]; [| exact D]. simpl in *.
  destruct (Qeq_bool q 0) eqn:E; [exact D |].
  apply Qeq_bool_neq in E. apply Qle_lt_or_eq in N.
  destruct N as [N | N]; [exact N |]. exfalso. apply E. symmetry. exact N.
Qed.

Lemma config_sizes_positive (p : BoxArtModel.Platform) :
  (0 < BoxArtModel.width (BoxArtModel.PLATFORM_CONFIGS p))%Q /\
  (0 < BoxArtModel.height (BoxArtModel.PLATFORM_CONFIGS p))%Q /\
  (0 < BoxArtModel.depth (BoxArtModel.PLATFORM_CONFIGS p))%Q.
Proof. destruct p; repeat split. Qed.

(** The viewer's box is never flat: when each size prop is absent, zero or
    positive, the three sizes handed to the geometry are positive, a zero
    prop counting as absent and giving the platform's size. *)
Theorem box_is_never_flat :
  forall (p : BoxArtModel.Props.t),
    BoxArtModel.absent_or_nonneg (BoxArtModel.Props.width p) ->
    BoxArtModel.absent_or_nonneg (BoxArtModel.Props.height p) ->
    BoxArtModel.absent_or_nonneg (BoxArtModel.Props.depth p) ->
    match BoxArtModel.box_args p with
    | (w, h, d) => (0 < w)%Q /\ (0 < h)%Q /\ (0 < d)%Q
    end.
Proof.
  intros p W H D. unfold BoxArtModel.box_args, BoxArtModel.config.
  destruct (config_sizes_positive (BoxArtModel.platform_of p)) as [cw [ch cd]].
  repeat split; apply or_num_positive; assumption.
Qed.

(** At work: a playstation box with width 0, no height and depth 0.5. *)
Lemma box_is_never_flat_witness :
  BoxArtModel.box_args
    {| BoxArtModel.Props.frontImageUrl := "front.png";
       BoxArtModel.Props.backImageUrl := None;
       BoxArtModel.Props.spineImageUrl := None;
       BoxArtModel.Props.width := Some 0%Q;
       BoxArtModel.Props.height := None;
       BoxArtModel.Props.depth := Some 0.5%Q;
       BoxArtModel.Props.platform := Some BoxArtModel.playstation |}
  = (2.75, 3.75, 0.5)%Q
  /\ (0 < 2.75)%Q.
Proof.
  split; [reflexivity |].
  refine (proj1 (box_is_never_flat
                   {| BoxArtModel.Props.frontImageUrl := "front.png";
                      BoxArtModel.Props.backImageUrl := None;
                      BoxArtModel.Props.spineImageUrl := None;
                      BoxArtModel.Props.width := Some 0%Q;
                      BoxArtModel.Props.height := None;
                      BoxArtModel.Props.depth := Some 0.5%Q;
                      BoxArtModel.Props.platform := Some BoxArtModel.playstation |}
                   _ _ _)); simpl; try exact I; lra.
Defined.

Lemma or_str_or (o : option string) (f : string) :
  JS.or_str (JS.or o (Some f)) EmptyString = JS.or_str o f.
Proof.
  assert (F : JS.or_str (Some f) EmptyString = f).
  { unfold JS.or_str, JS.or, JS.truthy.
    destruct (String.eqb_spec f EmptyString) as [E | E]; simpl; congruence. }
  destruct o as [v |].
  - unfold JS.or at 1, JS.truthy. destruct (v =? EmptyString) eqn:E; simpl.
    + rewrite F. unfold JS.or_str, JS.or, JS.truthy. rewrite E. reflexivity.
    + unfold JS.or_str, JS.or, JS.truthy. rewrite E. reflexivity.
  - exact F.
Qed.

Lemma tables_agree (p : Customizer.Platform) :
  BoxArtModel.color (BoxArtModel.PLATFORM_CONFIGS (BoxArtModel.of_customizer p))
  = Customizer.baseColor (Customizer.PLATFORM_CONFIGS p).
Proof. destruct p; reflexivity. Qed.

(** The customizer opens on what the card showed: for every sample, the
    freshly mounted customizer's preview has the same six faces as the card's
    viewer, slot by slot the same flat colour or the same image. *)
Theorem preview_faces_match_viewer :
  forall (useTexture : string -> CustomizableBoxModel.Texture)
         (imageSet : Demo.SampleImage) (st : Demo.State) (now : Z)
         (storage : option (list Customizer.CustomizationData)),
    exists initialData,
      Demo.customizer (Demo.onCustomize imageSet st) = Some initialData /\
      List.map BoxArtModel.face
        (CustomizableBoxModel.materials
           (CustomizableBoxModel.render useTexture
              (Customizer.model_props
                 (Customizer.customization
                    (Customizer.mount (Some initialData) now storage)))))
      = List.map BoxArtModel.face
          (CustomizableBoxModel.materials
             (BoxArtModel.render useTexture (Demo.preview imageSet))).
Proof.
  intros useTexture [f b sp pl ti] st now storage.
  eexists. split; [reflexivity |].
  unfold CustomizableBoxModel.render, CustomizableBoxModel.render_with,
    BoxArtModel.render, BoxArtModel.face.
  cbn [List.map CustomizableBoxModel.materials CustomizableBoxModel.attach
       CustomizableBoxModel.color CustomizableBoxModel.map option_map].
  unfold BoxArtModel.config, BoxArtModel.platform_of, BoxArtModel.front_source,
    BoxArtModel.back_source, BoxArtModel.spine_source.
  cbn [Demo.preview Demo.front Demo.back Demo.spine Demo.platform
       BoxArtModel.Props.platform BoxArtModel.Props.frontImageUrl
       BoxArtModel.Props.backImageUrl BoxArtModel.Props.spineImageUrl].
  rewrite tables_agree.
  cbn [Customizer.mount Customizer.customization Customizer.model_props
       Customizer.defaults Customizer.initial_platform
       CustomizableBoxModel.frameColor CustomizableBoxModel.frontImage
       CustomizableBoxModel.backImage CustomizableBoxModel.spineImage
       Customizer.frameColor Customizer.frontImage Customizer.backImage
       Customizer.spineImage option_map JS.opt_chain
       Customizer.Props.frontImageUrl Customizer.Props.backImageUrl
       Customizer.Props.spineImageUrl Customizer.Props.platform
       CustomizableBoxModel.markTexture CustomizableBoxModel.set_needsUpdate
       CustomizableBoxModel.image].
  rewrite !or_str_or.
  assert (F : JS.or_str (Some f) EmptyString = f) by (apply (or_str_or None f)).
  rewrite F. reflexivity.
Qed.

(** The page mounts a customizer exactly while a sample is selected: after
    any sequence of Customize and Close events the flag is on if and only if
    a sample is held, and the customizer is mounted if and only if the flag
    is on. *)
Theorem customizer_follows_selection :
  forall (es : list Demo.Event),
    let st := Demo.after es in
    (Demo.showCustomizer st = true <-> Demo.selectedSample st <> None) /\
    (Demo.customizer st <> None <-> Demo.showCustomizer st = true).
Proof.
  intro es. unfold Demo.after.
  induction es as [| e es IH] using rev_ind.
  - simpl. split; split; intro H; try discriminate H; contradiction.
  - rewrite fold_left_app. cbn [fold_left]. destruct e; cbn.
    + split; split; intro H; try reflexivity; discriminate.
    + split; split; intro H; try discriminate H; contradiction.
Qed.

(** A customizer opened from a sample starts as that sample: its images
    (back and spine falling back to the front when empty), its title (or
    Custom Box Art when empty), its platform and that platform's base
    colour; and closing unmounts it. *)
Theorem customize_starts_from_sample :
  forall (imageSet : Demo.SampleImage) (st : Demo.State) (now : Z)
         (storage : option (list Customizer.CustomizationData)),
    Demo.customizer (Demo.onClose (Demo.onCustomize imageSet st)) = None /\
    exists initialData,
      Demo.customizer (Demo.onCustomize imageSet st) = Some initialData /\
      let c := Customizer.customization
                 (Customizer.mount (Some initialData) now storage) in
      Customizer.frontImage c = Demo.front imageSet /\
      Customizer.backImage c
      = (if Demo.back imageSet =? EmptyString then Demo.front imageSet
         else Demo.back imageSet) /\
      Customizer.spineImage c
      = (if Demo.spine imageSet =? EmptyString then Demo.front imageSet
         else Demo.spine imageSet) /\
      Customizer.title c
      = (if Demo.title imageSet =? EmptyString then "Custom Box Art"
         else Demo.title imageSet) /\
      Customizer.platform c = Demo.platform imageSet /\
      Customizer.frameColor c
      = Customizer.baseColor (Customizer.PLATFORM_CONFIGS (Demo.platform imageSet)).
Proof.
  intros [f b sp pl ti] st now storage. split; [reflexivity |].
  eexists. split; [reflexivity |].
  cbn [Customizer.mount Customizer.customization Customizer.defaults
       Customizer.initial_platform Customizer.frameColor Customizer.frontImage
       Customizer.backImage Customizer.spineImage Customizer.title
       Customizer.platform option_map JS.opt_chain
       Customizer.Props.frontImageUrl Customizer.Props.backImageUrl
       Customizer.Props.spineImageUrl Customizer.Props.platform
       Customizer.Props.title Demo.front Demo.back Demo.spine Demo.title
       Demo.platform].
  rewrite !or_str_or.
  repeat split.
  - apply (or_str_or None f).
  - unfold JS.or_str, JS.or, JS.truthy. destruct (b =? EmptyString); reflexivity.
  - unfold JS.or_str, JS.or, JS.truthy. destruct (sp =? EmptyString); reflexivity.
  - unfold JS.or_str, JS.or, JS.truthy. destruct (ti =? EmptyString); reflexivity.
Qed.

End BoxAndDemo.
